(** * GoodSpa backend (index.js): request handlers over a relational store

    A shallow embedding of the Express handlers of [index.js]: the values a
    JSON request body can carry, the JavaScript operators the handlers apply
    to them ([!x], [String(x)], [parseFloat], [<], template literals,
    [String.prototype.replace], [substr]), the two tables the SQL statements
    act on, and one function per route that takes the request and the store
    and returns what is sent together with the store afterwards. *)

From Stdlib Require Import ZArith QArith String Ascii List Bool Lia.
From Stdlib Require Import Permutation Sorted DecimalString.
From Stdlib Require DecimalFacts DecimalPos DecimalN.
From stdpp Require Import base option gmap strings.
Import ListNotations.

Local Open Scope Z_scope.

(** ** JavaScript values *)

(** A JavaScript number, kept as an exact decimal: [Fin m d] is
    [m / 10^d].  Every number the handlers meet is read from decimal text
    (a JSON literal or the argument of [parseFloat]) and written back as
    decimal text, and a decimal of at most 15 significant digits survives
    the passage through an IEEE double unchanged; the rounding of longer
    literals, overflow to Infinity and the sign of zero are left out.
    The canonical form has [d = 0] or a last digit of [m] other than 0. *)
Inductive number : Type :=
  | NaN
  | Infinity (negative : bool)
  | Fin (m : Z) (d : nat).

(** The fields of a parsed JSON body that the handlers read.  [VUndefined]
    is what destructuring yields for an absent key.  A string is a
    sequence of code units below 256.  Array- and object-valued fields are
    outside the model. *)
Inductive jsval : Type :=
  | VUndefined
  | VNull
  | VBool (b : bool)
  | VNum (n : number)
  | VStr (s : string).

(** What a handler can raise. *)
Inductive js_error : Type :=
  | TypeError (msg : string).

Module JS.

(** *** Characters *)

Definition code (c : ascii) : Z := Z.of_N (N_of_ascii c).

Definition is_digit (c : ascii) : bool := (48 <=? code c) && (code c <=? 57).

Definition digit_value (c : ascii) : Z := code c - 48.

(** [StrWhiteSpaceChar] among the code units below 256. *)
Definition is_space (c : ascii) : bool :=
  let n := code c in
  ((9 <=? n) && (n <=? 13)) || (n =? 32) || (n =? 160).

(** *** Numbers *)

(** Drop the trailing zeros of the fraction. *)
Fixpoint reduce (m : Z) (d : nat) : number :=
  match d with
  | O => Fin m O
  | S d' => if m mod 10 =? 0 then reduce (m / 10) d' else Fin m d
  end.

(** [m * 10^e]. *)
Definition scale (m : Z) (e : Z) : number :=
  if 0 <=? e then Fin (m * 10 ^ e) O else reduce m (Z.to_nat (- e)).

Definition number_neg (n : number) : number :=
  match n with
  | NaN => NaN
  | Infinity s => Infinity (negb s)
  | Fin m d => Fin (- m) d
  end.

(** The value of a finite number. *)
Definition number_value (n : number) : option Q :=
  match n with
  | Fin m d => Some (m # Z.to_pos (10 ^ Z.of_nat d))
  | _ => None
  end.

(** [x < y] on numbers: false as soon as one side is NaN. *)
Definition number_lt (x y : number) : bool :=
  match x, y with
  | NaN, _ | _, NaN => false
  | Infinity sx, Infinity sy => sx && negb sy
  | Infinity sx, Fin _ _ => sx
  | Fin _ _, Infinity sy => negb sy
  | Fin m1 d1, Fin m2 d2 =>
      m1 * 10 ^ Z.of_nat d2 <? m2 * 10 ^ Z.of_nat d1
  end.

(** *** Decimal text *)

(** The decimal digits of a natural number. *)
Definition digits (n : Z) : string :=
  NilZero.string_of_uint (N.to_uint (Z.to_N n)).

Fixpoint zeros (n : nat) : string :=
  match n with
  | O => EmptyString
  | S n' => String "0" (zeros n')
  end.

(** Split a string after [n] characters. *)
Fixpoint split_at (n : nat) (s : string) : string * string :=
  match n, s with
  | S n', String c s' => let (a, b) := split_at n' s' in (String c a, b)
  | _, _ => (EmptyString, s)
  end.

Fixpoint drop_trailing_zeros (s : string) : string :=
  match s with
  | EmptyString => EmptyString
  | String c s' =>
      match drop_trailing_zeros s' with
      | EmptyString => if Ascii.eqb c "0" then EmptyString else String c EmptyString
      | t => String c t
      end
  end.

(** [s[0] . s[1..] e(+|-)x], the exponential form of Number::toString. *)
Definition exponential (s : string) (x : Z) : string :=
  let mant :=
    match s with
    | String c EmptyString => s
    | String c t => String c (String "." t)
    | EmptyString => s
    end in
  mant +:+ "e" +:+ (if 0 <? x then "+" else "-") +:+ digits (Z.abs x).

(** Number::toString for a positive finite number [m / 10^d]: with [s] the
    [k] significant digits and [n] the position of the decimal point,
    plain digits when [k <= n <= 21], a decimal point inside when
    [0 < n <= 21], leading ["0."] when [-6 < n <= 0], and the exponential
    form otherwise. *)
Definition positive_to_string (m : Z) (d : nat) : string :=
  let all := digits m in
  let s := drop_trailing_zeros all in
  let k := Z.of_nat (String.length s) in
  let n := Z.of_nat (String.length all) - Z.of_nat d in
  if (k <=? n) && (n <=? 21) then
    s +:+ zeros (Z.to_nat (n - k))
  else if (0 <? n) && (n <=? 21) then
    let (a, b) := split_at (Z.to_nat n) s in a +:+ "." +:+ b
  else if (-6 <? n) && (n <=? 0) then
    "0." +:+ zeros (Z.to_nat (- n)) +:+ s
  else exponential s (n - 1).

Definition number_to_string (x : number) : string :=
  match x with
  | NaN => "NaN"
  | Infinity false => "Infinity"
  | Infinity true => "-Infinity"
  | Fin m d =>
      if m =? 0 then "0"
      else if m <? 0 then "-" +:+ positive_to_string (- m) d
      else positive_to_string m d
  end.

(** *** Reading decimal text *)

(** [DecimalDigits] at the head of a string, and what follows. *)
Fixpoint span_digits (s : string) : string * string :=
  match s with
  | String c s' =>
      if is_digit c then let (a, b) := span_digits s' in (String c a, b)
      else (EmptyString, s)
  | EmptyString => (EmptyString, EmptyString)
  end.

Fixpoint decimal_value_from (acc : Z) (s : string) : Z :=
  match s with
  | String c s' => decimal_value_from (acc * 10 + digit_value c) s'
  | EmptyString => acc
  end.

Definition decimal_value (s : string) : Z := decimal_value_from 0 s.

Definition is_empty (s : string) : bool :=
  match s with EmptyString => true | _ => false end.

(** [ExponentPart], when one is complete: [e] or [E], an optional sign and
    at least one digit.  Otherwise the exponent is 0 and nothing is read. *)
Definition scan_exponent (s : string) : Z * string :=
  match s with
  | String c s' =>
      if Ascii.eqb c "e" || Ascii.eqb c "E" then
        let '(neg, t) :=
          match s' with
          | String "+" t => (false, t)
          | String "-" t => (true, t)
          | _ => (false, s')
          end in
        let (ds, rest) := span_digits t in
        if is_empty ds then (0, s)
        else ((if neg then - decimal_value ds else decimal_value ds), rest)
      else (0, s)
  | EmptyString => (0, s)
  end.

Fixpoint skip (n : nat) (s : string) : string :=
  match n, s with
  | S n', String _ s' => skip n' s'
  | _, _ => s
  end.

(** The longest prefix that is a [StrUnsignedDecimalLiteral], as a number,
    with the rest of the string; [None] when no prefix is one. *)
Definition scan_unsigned (s : string) : option (number * string) :=
  if String.prefix "Infinity" s then Some (Infinity false, skip 8 s)
  else
    let (ip, r1) := span_digits s in
    match r1 with
    | String "." t =>
        let (fp, r2) := span_digits t in
        if is_empty ip && is_empty fp then None
        else
          let (e, r3) := scan_exponent r2 in
          Some (scale (decimal_value (ip +:+ fp))
                      (e - Z.of_nat (String.length fp)), r3)
    | _ =>
        if is_empty ip then None
        else
          let (e, r3) := scan_exponent r1 in
          Some (scale (decimal_value ip) e, r3)
    end.

(** [StrDecimalLiteral]: an optional sign in front. *)
Definition scan_decimal (s : string) : option (number * string) :=
  match s with
  | String "+" t => scan_unsigned t
  | String "-" t =>
      match scan_unsigned t with
      | Some (n, r) => Some (number_neg n, r)
      | None => None
      end
  | _ => scan_unsigned s
  end.

Fixpoint trim_start (s : string) : string :=
  match s with
  | String c s' => if is_space c then trim_start s' else s
  | EmptyString => EmptyString
  end.

Fixpoint all_space (s : string) : bool :=
  match s with
  | String c s' => is_space c && all_space s'
  | EmptyString => true
  end.

(** [parseFloat(string)]: leading white space is skipped and the longest
    prefix that is a decimal literal is the result, NaN when there is
    none. *)
Definition parseFloat (s : string) : number :=
  match scan_decimal (trim_start s) with
  | Some (n, _) => n
  | None => NaN
  end.

(** The value of a digit in radix [r], for [NonDecimalIntegerLiteral]. *)
Definition radix_digit (r : Z) (c : ascii) : option Z :=
  let n := code c in
  let v :=
    if is_digit c then n - 48
    else if (97 <=? n) && (n <=? 102) then n - 87
    else if (65 <=? n) && (n <=? 70) then n - 55
    else 16 in
  if v <? r then Some v else None.

Fixpoint scan_radix (r : Z) (acc : option Z) (s : string) : option Z * string :=
  match s with
  | String c s' =>
      match radix_digit r c with
      | Some v =>
          scan_radix r (Some (match acc with Some a => a | None => 0 end * r + v)) s'
      | None => (acc, s)
      end
  | EmptyString => (acc, s)
  end.

Definition radix_of_prefix (s : string) : option (Z * string) :=
  match s with
  | String "0" (String c t) =>
      if Ascii.eqb c "x" || Ascii.eqb c "X" then Some (16, t)
      else if Ascii.eqb c "o" || Ascii.eqb c "O" then Some (8, t)
      else if Ascii.eqb c "b" || Ascii.eqb c "B" then Some (2, t)
      else None
  | _ => None
  end.

(** [StringToNumber]: white space at both ends is ignored, the empty text
    is 0, and the whole of what remains has to be a numeric literal. *)
Definition string_to_number (s : string) : number :=
  let t := trim_start s in
  if is_empty t then Fin 0 O
  else
    match radix_of_prefix t with
    | Some (r, u) =>
        match scan_radix r None u with
        | (Some v, rest) => if all_space rest then Fin v O else NaN
        | (None, _) => NaN
        end
    | None =>
        match scan_decimal t with
        | Some (n, rest) => if all_space rest then n else NaN
        | None => NaN
        end
    end.

(** *** The operators the handlers use *)

(** [ToBoolean]; [!x] is [negb (truthy x)]. *)
Definition truthy (v : jsval) : bool :=
  match v with
  | VUndefined | VNull => false
  | VBool b => b
  | VNum NaN => false
  | VNum (Infinity _) => true
  | VNum (Fin m _) => negb (m =? 0)
  | VStr s => negb (is_empty s)
  end.

Definition falsy (v : jsval) : bool := negb (truthy v).

(** [ToString]: [String(x)] and the holes of a template literal. *)
Definition to_string (v : jsval) : string :=
  match v with
  | VUndefined => "undefined"
  | VNull => "null"
  | VBool true => "true"
  | VBool false => "false"
  | VNum n => number_to_string n
  | VStr s => s
  end.

(** [ToNumber]. *)
Definition to_number (v : jsval) : number :=
  match v with
  | VUndefined => NaN
  | VNull => Fin 0 O
  | VBool true => Fin 1 O
  | VBool false => Fin 0 O
  | VNum n => n
  | VStr s => string_to_number s
  end.

Fixpoint string_lt (a b : string) : bool :=
  match a, b with
  | _, EmptyString => false
  | EmptyString, String _ _ => true
  | String x a', String y b' =>
      if code x <? code y then true
      else if code y <? code x then false
      else string_lt a' b'
  end.

(** [a < b]: two strings are compared by code units, anything else as
    numbers.  [a > b] is [less_than b a]. *)
Definition less_than (a b : jsval) : bool :=
  match a, b with
  | VStr x, VStr y => string_lt x y
  | _, _ => number_lt (to_number a) (to_number b)
  end.

(** [x === undefined]. *)
Definition is_undefined (v : jsval) : bool :=
  match v with VUndefined => true | _ => false end.

(** [s.replace(pat, rep)] with a string pattern: the first occurrence only.
    [rep] is taken literally, as it is for a replacement without [$]. *)
Fixpoint replace_first (pat rep s : string) : string :=
  if String.prefix pat s then rep +:+ skip (String.length pat) s
  else
    match s with
    | String c s' => String c (replace_first pat rep s')
    | EmptyString => EmptyString
    end.

(** [s.replace(/[...]/g, '')]: every character of the class is removed. *)
Fixpoint remove_all (class : ascii -> bool) (s : string) : string :=
  match s with
  | String c s' =>
      if class c then remove_all class s' else String c (remove_all class s')
  | EmptyString => EmptyString
  end.

(** [s.substr(start, length)] for non-negative arguments. *)
Definition substr (start len : nat) (s : string) : string :=
  String.substring start len s.

End JS.

Import JS.

(** ** The store *)

(** Modelled from the spec: the schema of the two tables, for which the
    repository holds no DDL.  A row keeps the values that the INSERT bound
    to its columns; [id] is drawn from the table's sequence and
    [payment_status] is unset ([VNull]) until a confirmation writes it. *)
Record booking : Type := {
  booking_id : Z;
  service : jsval;
  duration : jsval;
  price : jsval;
  name : jsval;
  phone : jsval;
  datetime : jsval;
  payment_status : jsval
}.

Record testimonial : Type := {
  testimonial_id : Z;
  reviewer_name : jsval;
  reviewer_email : jsval;
  review_title : jsval;
  review_text : jsval;
  rating : jsval;
  genuine_opinion : jsval;
  created_at : Z
}.

(** The database: both tables, each with the next value of its id
    sequence. *)
Record db : Type := {
  bookings : list booking;
  booking_seq : Z;
  testimonials : list testimonial;
  testimonial_seq : Z
}.

(** What [await pool.query(...)] comes back with: the rows of the result
    ([rowCount] is their number, every statement here that changes rows
    has a RETURNING clause), or a rejection that lands in [catch]. *)
Inductive reply (R : Type) : Type :=
  | Rows (rows : list R)
  | StoreError.
Arguments Rows {R} rows.
Arguments StoreError {R}.

Definition rowCount {R : Type} (rows : list R) : Z := Z.of_nat (List.length rows).

(** Whether the pool runs the statement of a request or rejects it
    (connection lost, constraint violated): the handlers attempt each
    statement once, so one value per request says it all. *)
Inductive fate : Type := Runs | Rejects.

Module SQL.

Section OrderBy.
Context {R : Type} (key : R -> Z).

Fixpoint insert_desc (x : R) (l : list R) : list R :=
  match l with
  | [] => [x]
  | y :: l' => if key y <? key x then x :: l else y :: insert_desc x l'
  end.

(** [ORDER BY key DESC]. *)
Fixpoint order_by_desc (l : list R) : list R :=
  match l with
  | [] => []
  | x :: l' => insert_desc x (order_by_desc l')
  end.
End OrderBy.

(** The text node-postgres sends for a bound value: nothing (NULL) for
    [undefined] and [null], [toString()] for the rest. *)
Definition param_text (v : jsval) : option string :=
  match v with
  | VUndefined | VNull => None
  | _ => Some (to_string v)
  end.

Definition is_blank (c : ascii) : bool :=
  let n := code c in ((9 <=? n) && (n <=? 13)) || (n =? 32).

Fixpoint skip_blanks (s : string) : string :=
  match s with
  | String c s' => if is_blank c then skip_blanks s' else s
  | EmptyString => EmptyString
  end.

(** The integer a text stands for when it is compared with an [id]:
    blanks, an optional sign, digits, blanks; anything else is an
    invalid-input error of the store. *)
Definition integer_in (s : string) : option Z :=
  let t := skip_blanks s in
  let '(neg, u) :=
    match t with
    | String "-" u => (true, u)
    | String "+" u => (false, u)
    | _ => (false, t)
    end in
  let (ds, rest) := span_digits u in
  if is_empty ds || negb (is_empty (skip_blanks rest)) then None
  else Some (if neg then - decimal_value ds else decimal_value ds).

(** [SELECT * FROM booking_spa12 ORDER BY datetime DESC], with [instant]
    the point in time the store reads in a [datetime] value. *)
Definition select_bookings (instant : jsval -> Z) (d : db)
  : reply booking * db :=
  (Rows (order_by_desc (fun b => instant (datetime b)) (bookings d)), d).

(** [INSERT INTO booking_spa12(service, duration, price, name, phone,
    datetime) VALUES($1, $2, $3, $4, $5, $6) RETURNING *]. *)
Definition insert_booking (p1 p2 p3 p4 p5 p6 : jsval) (d : db)
  : reply booking * db :=
  let row := {| booking_id := booking_seq d;
                service := p1; duration := p2; price := p3;
                name := p4; phone := p5; datetime := p6;
                payment_status := VNull |} in
  (Rows [row],
   {| bookings := bookings d ++ [row];
      booking_seq := booking_seq d + 1;
      testimonials := testimonials d;
      testimonial_seq := testimonial_seq d |}).

Definition set_payment_status (v : jsval) (b : booking) : booking :=
  {| booking_id := booking_id b;
     service := service b; duration := duration b; price := price b;
     name := name b; phone := phone b; datetime := datetime b;
     payment_status := v |}.

(** The rows [WHERE id = i] selects. *)
Definition has_id (i : Z) (b : booking) : bool := booking_id b =? i.

(** The table after [SET payment_status = v WHERE id = i]. *)
Definition update_rows (i : Z) (v : jsval) (l : list booking) : list booking :=
  map (fun b => if has_id i b then set_payment_status v b else b) l.

(** What [RETURNING *] hands back: the rows that were written, as they are
    afterwards. *)
Definition returning_rows (i : Z) (v : jsval) (l : list booking)
  : list booking :=
  map (set_payment_status v) (List.filter (has_id i) l).

(** [UPDATE booking_spa12 SET payment_status = $1 WHERE id = $2
    RETURNING *].  A NULL for [$2] selects no row; a text that is no
    integer is an error. *)
Definition update_payment_status (p1 p2 : jsval) (d : db)
  : reply booking * db :=
  match param_text p2 with
  | None => (Rows [], d)
  | Some t =>
      match integer_in t with
      | None => (StoreError, d)
      | Some i =>
          (Rows (returning_rows i p1 (bookings d)),
           {| bookings := update_rows i p1 (bookings d);
              booking_seq := booking_seq d;
              testimonials := testimonials d;
              testimonial_seq := testimonial_seq d |})
      end
  end.

(** [INSERT INTO testimonials(reviewer_name, reviewer_email, review_title,
    review_text, rating, genuine_opinion, created_at)
    VALUES($1, $2, $3, $4, $5, $6, NOW()) RETURNING *]. *)
Definition insert_testimonial (now : Z) (p1 p2 p3 p4 p5 p6 : jsval) (d : db)
  : reply testimonial * db :=
  let row := {| testimonial_id := testimonial_seq d;
                reviewer_name := p1; reviewer_email := p2;
                review_title := p3; review_text := p4;
                rating := p5; genuine_opinion := p6;
                created_at := now |} in
  (Rows [row],
   {| bookings := bookings d;
      booking_seq := booking_seq d;
      testimonials := testimonials d ++ [row];
      testimonial_seq := testimonial_seq d + 1 |}).

(** [SELECT * FROM testimonials ORDER BY created_at DESC]. *)
Definition select_testimonials (d : db) : reply testimonial * db :=
  (Rows (order_by_desc created_at (testimonials d)), d).

Definition has_testimonial_id (i : Z) (t : testimonial) : bool :=
  testimonial_id t =? i.

(** [DELETE FROM booking_spa12 WHERE id = $1 RETURNING id]: the ids of the
    rows that went, and the table without them. *)
Definition delete_booking (p1 : jsval) (d : db) : reply Z * db :=
  match param_text p1 with
  | None => (Rows [], d)
  | Some t =>
      match integer_in t with
      | None => (StoreError, d)
      | Some i =>
          (Rows (map booking_id (List.filter (has_id i) (bookings d))),
           {| bookings := List.filter (fun b => negb (has_id i b)) (bookings d);
              booking_seq := booking_seq d;
              testimonials := testimonials d;
              testimonial_seq := testimonial_seq d |})
      end
  end.

(** [DELETE FROM testimonials WHERE id = $1 RETURNING id]. *)
Definition delete_testimonial (p1 : jsval) (d : db) : reply Z * db :=
  match param_text p1 with
  | None => (Rows [], d)
  | Some t =>
      match integer_in t with
      | None => (StoreError, d)
      | Some i =>
          (Rows (map testimonial_id
                   (List.filter (has_testimonial_id i) (testimonials d))),
           {| bookings := bookings d;
              booking_seq := booking_seq d;
              testimonials :=
                List.filter (fun t => negb (has_testimonial_id i t))
                  (testimonials d);
              testimonial_seq := testimonial_seq d |})
      end
  end.

End SQL.

(** [pool.query(statement)]: a rejected statement leaves the store as it
    was. *)
Definition query {R : Type} (f : fate) (statement : db -> reply R * db)
    (d : db) : reply R * db :=
  match f with
  | Runs => statement d
  | Rejects => (StoreError, d)
  end.

(** ** Requests and responses *)

(** [req.body] after [express.json()]: the keys of the JSON object. *)
Definition request_body : Type := gmap string jsval.

(** Destructuring [const { k } = req.body]. *)
Definition field_of (body : request_body) (k : string) : jsval :=
  match body !! k with
  | Some v => v
  | None => VUndefined
  end.

(** The JSON documents the handlers send. *)
Inductive json : Type :=
  | ErrorBody (error : string)
  | MessageBody (message : string)
  | BookingList (rows : list booking)
  | BookingRow (row : option booking)
  | TestimonialList (rows : list testimonial)
  | TestimonialRow (row : option testimonial)
  | PaymentBody (message qrCodeUrl transactionId status : string).

Record response : Type := { status : Z; body : json }.

(** What becomes of a request: a response, sent after [delay] milliseconds,
    or an exception that leaves the handler. *)
Inductive outcome : Type :=
  | Sends (delay : Z) (r : response)
  | Throws (e : js_error).

Definition send (code : Z) (b : json) : outcome :=
  Sends 0 {| status := code; body := b |}.

(** ** The handlers *)

(** [GET /booking_spa12]. *)
Definition get_bookings (instant : jsval -> Z) (f : fate) (d : db)
  : outcome * db :=
  match query f (SQL.select_bookings instant) d with
  | (Rows rows, d') => (send 200 (BookingList rows), d')
  | (StoreError, d') =>
      (send 500 (ErrorBody "Failed to retrieve bookings from the database."), d')
  end.

(** The class [[^0-9.]]. *)
Definition not_digit_or_point (c : ascii) : bool :=
  negb (is_digit c || Ascii.eqb c ".").

(** [parseFloat(String(price).replace(/[^0-9.]/g, ''))]. *)
Definition cleanPrice (price : jsval) : number :=
  parseFloat (remove_all not_digit_or_point (to_string price)).

(** [POST /booking_spa12]. *)
Definition post_booking (f : fate) (body : request_body) (d : db)
  : outcome * db :=
  let service := field_of body "service" in
  let duration := field_of body "duration" in
  let price := field_of body "price" in
  let name := field_of body "name" in
  let phone := field_of body "phone" in
  let datetime := field_of body "datetime" in
  if falsy service || falsy duration || falsy price
     || falsy name || falsy phone || falsy datetime
  then (send 400 (ErrorBody "All booking fields are required."), d)
  else
    match query f (SQL.insert_booking service duration
                     (VNum (cleanPrice price)) name phone datetime) d with
    | (Rows rows, d') => (send 201 (BookingRow (head rows)), d')
    | (StoreError, d') =>
        (send 500 (ErrorBody "Failed to add booking to the database."), d')
    end.

(** [v.replace(pat, rep)]: only a string has the method. *)
Definition call_replace (v : jsval) (pat rep : string) : js_error + string :=
  match v with
  | VStr s => inr (replace_first pat rep s)
  | VUndefined | VNull =>
      inl (TypeError "Cannot read properties of undefined (reading 'replace')")
  | VBool _ | VNum _ => inl (TypeError "amount.replace is not a function")
  end.

Definition base36_char (v : Z) : ascii :=
  let v := v mod 36 in
  ascii_of_N (Z.to_N (if v <? 10 then 48 + v else 87 + v)).

(** [Math.random().toString(36)], the draw being given by the base-36
    digits of its fraction as they are printed: ["0"] for a draw of 0,
    ["0."] and the digits otherwise. *)
Definition random_to_string36 (fraction : list Z) : string :=
  match fraction with
  | [] => "0"
  | _ => "0." +:+ string_of_list_ascii (map base36_char fraction)
  end.

(** [POST /api/payments/initiate], with [now] the value of [Date.now()]
    and [random] the draw of [Math.random()].  The store is not touched,
    and the response leaves a second after the request. *)
Definition post_payments_initiate (now : Z) (random : list Z)
    (body : request_body) (d : db) : outcome * db :=
  let amount := field_of body "amount" in
  let serviceName := field_of body "serviceName" in
  let bookingId := field_of body "bookingId" in
  if falsy amount || falsy serviceName || falsy bookingId
  then (send 400 (ErrorBody
          "Payment amount, service name, and booking ID are required to initiate payment."), d)
  else
    match call_replace amount "$" "" with
    | inl e => (Throws e, d)
    | inr stripped =>
        let simulatedQrCodeUrl :=
          "https://i.postimg.cc/Dz3sgw1N/QR1.jpg?amount=" +:+ stripped
          +:+ "&bookingId=" +:+ to_string bookingId in
        let transactionId :=
          "TXN-" +:+ number_to_string (Fin now O) +:+ "-"
          +:+ substr 2 9 (random_to_string36 random) in
        (Sends 1000
           {| status := 200;
              body := PaymentBody
                "Payment initiation successful (simulated). Scan QR to complete."
                simulatedQrCodeUrl transactionId "pending" |}, d)
    end.

(** [POST /api/payments/confirm]. *)
Definition post_payments_confirm (f : fate) (body : request_body) (d : db)
  : outcome * db :=
  let bookingId := field_of body "bookingId" in
  if falsy bookingId
  then (send 400 (ErrorBody "Booking ID is required to confirm payment."), d)
  else
    match query f (SQL.update_payment_status (VStr "completed") bookingId) d with
    | (Rows rows, d') =>
        if rowCount rows =? 0
        then (send 404 (ErrorBody
                ("Booking with ID " +:+ to_string bookingId
                 +:+ " not found for payment confirmation.")), d')
        else (send 200 (MessageBody
                ("Payment for booking ID " +:+ to_string bookingId
                 +:+ " confirmed successfully.")), d')
    | (StoreError, d') =>
        (send 500 (ErrorBody "Failed to update payment status in the database."), d')
    end.

(** [POST /api/testimonials], with [now] the store's clock at the INSERT. *)
Definition post_testimonials (f : fate) (now : Z) (body : request_body)
    (d : db) : outcome * db :=
  let reviewerName := field_of body "reviewerName" in
  let reviewerEmail := field_of body "reviewerEmail" in
  let reviewTitle := field_of body "reviewTitle" in
  let reviewText := field_of body "reviewText" in
  let rating := field_of body "rating" in
  let genuineOpinion := field_of body "genuineOpinion" in
  if falsy reviewerName || falsy reviewerEmail || falsy reviewText
     || falsy rating || is_undefined genuineOpinion
  then (send 400 (ErrorBody
          "All testimonial fields (except title) are required."), d)
  else if less_than rating (VNum (Fin 1 O)) || less_than (VNum (Fin 5 O)) rating
  then (send 400 (ErrorBody "Rating must be between 1 and 5."), d)
  else
    match query f (SQL.insert_testimonial now reviewerName reviewerEmail
                     reviewTitle reviewText rating genuineOpinion) d with
    | (Rows rows, d') => (send 201 (TestimonialRow (head rows)), d')
    | (StoreError, d') =>
        (send 500 (ErrorBody "Failed to add testimonial to the database."), d')
    end.

(** [GET /api/testimonials]. *)
Definition get_testimonials (f : fate) (d : db) : outcome * db :=
  match query f SQL.select_testimonials d with
  | (Rows rows, d') => (send 200 (TestimonialList rows), d')
  | (StoreError, d') =>
      (send 500 (ErrorBody "Failed to retrieve testimonials from the database."), d')
  end.

(** [DELETE /booking_spa12/:id], with [id] the text of the path
    parameter. *)
Definition delete_booking (f : fate) (id : string) (d : db) : outcome * db :=
  match query f (SQL.delete_booking (VStr id)) d with
  | (Rows rows, d') =>
      if rowCount rows =? 0
      then (send 404 (ErrorBody ("Booking with ID " +:+ id +:+ " not found.")), d')
      else (send 200 (MessageBody
              ("Booking with ID " +:+ id +:+ " deleted successfully.")), d')
  | (StoreError, d') =>
      (send 500 (ErrorBody "Failed to delete booking from the database."), d')
  end.

(** [err.message || 'Unknown database error']. *)
Definition message_or_unknown (err_message : jsval) : string :=
  to_string (if truthy err_message then err_message
             else VStr "Unknown database error").

(** [DELETE /api/testimonials/:id], with [id] the text of the path
    parameter and [err_message] the [message] of the error the statement
    raises, should it raise one. *)
Definition delete_testimonial (f : fate) (err_message : jsval) (id : string)
    (d : db) : outcome * db :=
  match query f (SQL.delete_testimonial (VStr id)) d with
  | (Rows rows, d') =>
      if rowCount rows =? 0
      then (send 404 (ErrorBody
              ("Testimonial with ID " +:+ id +:+ " not found.")), d')
      else (send 200 (MessageBody
              ("Testimonial with ID " +:+ id +:+ " deleted successfully.")), d')
  | (StoreError, d') =>
      (send 500 (ErrorBody
         ("Failed to delete testimonial from the database: "
          +:+ message_or_unknown err_message)), d')
  end.

(** ** Start-up *)

(** [process.env]: the variables that are set, with their text. *)
Definition environment : Type := gmap string string.

(** [process.env.NAME]. *)
Definition getenv (env : environment) (k : string) : jsval :=
  match env !! k with
  | Some s => VStr s
  | None => VUndefined
  end.

(** What the start-up trace prints after ["DB_PASSWORD (first 5 chars):"]:
    [process.env.DB_PASSWORD ? process.env.DB_PASSWORD.substring(0, 5) +
    '3TEXrlu4o087YHbw3BcUKO4lOik4a2Tn' : 'NOT SET OR EMPTY']. *)
Definition password_trace (env : environment) : string :=
  match getenv env "DB_PASSWORD" with
  | VStr p =>
      if truthy (VStr p)
      then String.substring 0 5 p +:+ "3TEXrlu4o087YHbw3BcUKO4lOik4a2Tn"
      else "NOT SET OR EMPTY"
  | _ => "NOT SET OR EMPTY"
  end.

Arguments field_of : simpl never.

(** The id a bound value is compared as in [WHERE id = $n], when the
    store can read one in it. *)
Definition bound_id (v : jsval) : option Z :=
  match SQL.param_text v with
  | Some t => SQL.integer_in t
  | None => None
  end.

Definition status_of (o : outcome) : option Z :=
  match o with
  | Sends _ r => Some (status r)
  | Throws _ => None
  end.

Definition body_of (o : outcome) : option json :=
  match o with
  | Sends _ r => Some (body r)
  | Throws _ => None
  end.

(** The store after a confirmation of booking [i] that ran. *)
Definition confirmed (i : Z) (d : db) : db :=
  {| bookings := SQL.update_rows i (VStr "completed") (bookings d);
     booking_seq := booking_seq d;
     testimonials := testimonials d;
     testimonial_seq := testimonial_seq d |}.

(** The row [POST /booking_spa12] inserts for a request: the id is the
    next value of the sequence, the price is the cleaned one, the other
    five columns are the values of the request. *)
Definition created_booking (body : request_body) (d : db) : booking :=
  {| booking_id := booking_seq d;
     service := field_of body "service";
     duration := field_of body "duration";
     price := VNum (cleanPrice (field_of body "price"));
     name := field_of body "name";
     phone := field_of body "phone";
     datetime := field_of body "datetime";
     payment_status := VNull |}.

Definition with_booking (row : booking) (d : db) : db :=
  {| bookings := bookings d ++ [row];
     booking_seq := booking_seq d + 1;
     testimonials := testimonials d;
     testimonial_seq := testimonial_seq d |}.

(** [1 <= r <= 5] for a number [r]. *)
Definition between_1_and_5 (r : number) : Prop :=
  match number_value r with
  | Some q => (1 <= q)%Q /\ (q <= 5)%Q
  | None => False
  end.

(** The range test of the handler, [rating < 1 || rating > 5], on a
    number. *)
Definition out_of_range (r : number) : bool :=
  less_than (VNum r) (VNum (Fin 1 O)) || less_than (VNum (Fin 5 O)) (VNum r).

Definition created_testimonial (now : Z) (body : request_body) (d : db)
  : testimonial :=
  {| testimonial_id := testimonial_seq d;
     reviewer_name := field_of body "reviewerName";
     reviewer_email := field_of body "reviewerEmail";
     review_title := field_of body "reviewTitle";
     review_text := field_of body "reviewText";
     rating := field_of body "rating";
     genuine_opinion := field_of body "genuineOpinion";
     created_at := now |}.

Definition with_testimonial (row : testimonial) (d : db) : db :=
  {| bookings := bookings d;
     booking_seq := booking_seq d;
     testimonials := testimonials d ++ [row];
     testimonial_seq := testimonial_seq d + 1 |}.

Definition missing_fields : string :=
  "All testimonial fields (except title) are required.".

Definition rating_out_of_range : string := "Rating must be between 1 and 5.".

Fixpoint all_digits (s : string) : bool :=
  match s with
  | String c s' => is_digit c && all_digits s'
  | EmptyString => true
  end.

(** The characters [/[^0-9.]/g] leaves in place. *)
Definition digit_or_point (c : ascii) : bool := is_digit c || Ascii.eqb c ".".

(** The pattern [TXN-<digits>-<alphanumeric>]: the prefix, at least one
    digit, a hyphen, and digits or lower-case letters to the end. *)
Definition is_base36 (c : ascii) : bool :=
  is_digit c || ((97 <=? code c) && (code c <=? 122)).

Fixpoint all_base36 (s : string) : bool :=
  match s with
  | String c s' => is_base36 c && all_base36 s'
  | EmptyString => true
  end.

Definition is_transaction_id (s : string) : bool :=
  String.prefix "TXN-" s
  && (let (ds, rest) := span_digits (skip 4 s) in
      negb (is_empty ds)
      && match rest with
         | String "-" t => all_base36 t
         | _ => false
         end).

(** [a] may stand before [b] in a listing that descends along [key]. *)
Definition descending {R : Type} (key : R -> Z) (a b : R) : Prop :=
  key b <= key a.

(** ** The application *)

(** What a request meets outside the handler: how the store reads
    datetime values, whether the pool runs the statement, the instant of
    [Date.now()] and of the store's [NOW()], the draw of [Math.random()],
    and the message of the error when the statement raises one. *)
Record world : Type := {
  w_instant : jsval -> Z;
  w_fate : fate;
  w_date_now : Z;
  w_store_now : Z;
  w_random : list Z;
  w_error_message : jsval
}.

(** The routes registered on [app], each with what it reads from the
    request. *)
Inductive request : Type :=
  | GET_booking_spa12
  | POST_booking_spa12 (body : request_body)
  | DELETE_booking_spa12 (id : string)
  | POST_payments_initiate (body : request_body)
  | POST_payments_confirm (body : request_body)
  | POST_testimonials (body : request_body)
  | GET_testimonials
  | DELETE_testimonials (id : string).

Definition handle (w : world) (r : request) (d : db) : outcome * db :=
  match r with
  | GET_booking_spa12 => get_bookings (w_instant w) (w_fate w) d
  | POST_booking_spa12 body => post_booking (w_fate w) body d
  | DELETE_booking_spa12 id => delete_booking (w_fate w) id d
  | POST_payments_initiate body =>
      post_payments_initiate (w_date_now w) (w_random w) body d
  | POST_payments_confirm body => post_payments_confirm (w_fate w) body d
  | POST_testimonials body => post_testimonials (w_fate w) (w_store_now w) body d
  | GET_testimonials => get_testimonials (w_fate w) d
  | DELETE_testimonials id =>
      delete_testimonial (w_fate w) (w_error_message w) id d
  end.

(** The store after a sequence of requests, taken in the order in which
    their statements reach the store. *)
Fixpoint serve (trace : list (world * request)) (d : db) : db :=
  match trace with
  | [] => d
  | (w, r) :: rest => serve rest (snd (handle w r d))
  end.

(** The ids of a table are those of distinct rows, and the sequence is
    ahead of them all. *)
Definition ids_fresh (d : db) : Prop :=
  List.NoDup (map booking_id (bookings d))
  /\ (forall x, In x (bookings d) -> booking_id x < booking_seq d)
  /\ List.NoDup (map testimonial_id (testimonials d))
  /\ (forall t, In t (testimonials d) -> testimonial_id t < testimonial_seq d).

(** A number that is not below zero, or NaN. *)
Definition not_negative (n : number) : Prop :=
  match n with
  | NaN => True
  | Infinity negative => negative = false
  | Fin m _ => 0 <= m
  end.

Fixpoint no_digit (s : string) : bool :=
  match s with
  | String c s' => negb (is_digit c) && no_digit s'
  | EmptyString => true
  end.

(** A text of digits and decimal points. *)
Fixpoint price_text (s : string) : bool :=
  match s with
  | String c s' => digit_or_point c && price_text s'
  | EmptyString => true
  end.

Fixpoint no_dollar (s : string) : bool :=
  match s with
  | String c s' => negb (Ascii.eqb c "$") && no_dollar s'
  | EmptyString => true
  end.

(** What the create handler lets into the bookings table: the five texts
    truthy, a price that is a number, NaN or not negative, and a
    payment_status that is unset or ["completed"]. *)
Definition valid_booking (x : booking) : Prop :=
  truthy (service x) = true
  /\ truthy (duration x) = true
  /\ truthy (name x) = true
  /\ truthy (phone x) = true
  /\ truthy (datetime x) = true
  /\ (exists n, price x = VNum n /\ not_negative n)
  /\ (payment_status x = VNull \/ payment_status x = VStr "completed").

(** What the create handler lets into the testimonials table: name, email,
    text and rating truthy, an opinion that is not undefined, and a rating
    that lies in [1, 5] when it is a number. *)
Definition valid_testimonial (t : testimonial) : Prop :=
  truthy (reviewer_name t) = true
  /\ truthy (reviewer_email t) = true
  /\ truthy (review_text t) = true
  /\ truthy (rating t) = true
  /\ genuine_opinion t <> VUndefined
  /\ (forall r, rating t = VNum r -> between_1_and_5 r).


(** The store without the bookings, or the testimonials, of id [i]. *)
Definition without_booking (i : Z) (d : db) : db :=
  {| bookings := List.filter (fun b => negb (SQL.has_id i b)) (bookings d);
     booking_seq := booking_seq d;
     testimonials := testimonials d;
     testimonial_seq := testimonial_seq d |}.

Definition without_testimonial (i : Z) (d : db) : db :=
  {| bookings := bookings d;
     booking_seq := booking_seq d;
     testimonials :=
       List.filter (fun t => negb (SQL.has_testimonial_id i t)) (testimonials d);
     testimonial_seq := testimonial_seq d |}.

(** ** Sample data *)

Definition empty_db : db :=
  {| bookings := []; booking_seq := 1;
     testimonials := []; testimonial_seq := 1 |}.

Definition massage_request : request_body :=
  list_to_map
    [("service", VStr "Massage"); ("duration", VStr "60 min");
     ("price", VStr "$45.00"); ("name", VStr "Dara");
     ("phone", VStr "012345678"); ("datetime", VStr "2025-03-01T10:00")].

Definition massage_row : booking :=
  {| booking_id := 1;
     service := VStr "Massage"; duration := VStr "60 min";
     price := VNum (Fin 45 O); name := VStr "Dara";
     phone := VStr "012345678"; datetime := VStr "2025-03-01T10:00";
     payment_status := VNull |}.

Definition one_booking_db : db :=
  {| bookings := [massage_row]; booking_seq := 2;
     testimonials := []; testimonial_seq := 1 |}.

(** A reading of [datetime] values for the examples: the digits of the
    text, taken as one number. *)
Definition digits_instant (v : jsval) : Z :=
  decimal_value (remove_all (fun c => negb (is_digit c)) (to_string v)).

Definition fifty_request : request_body :=
  list_to_map
    [("amount", VNum (Fin 50 O)); ("serviceName", VStr "Massage");
     ("bookingId", VStr "1")].

Definition fifty_dollar_request : request_body :=
  list_to_map
    [("amount", VStr "$50"); ("serviceName", VStr "Massage");
     ("bookingId", VStr "1")].

Definition confirm_request (bookingId : jsval) : request_body :=
  {[ "bookingId"%string := bookingId ]}.

Definition review_request (rating : jsval) : request_body :=
  list_to_map
    [("reviewerName", VStr "Sokha"); ("reviewerEmail", VStr "sokha@example.org");
     ("reviewText", VStr "Very relaxing."); ("rating", rating);
     ("genuineOpinion", VBool true)].

Definition one_testimonial_db : db :=
  snd (post_testimonials Runs 1000 (review_request (VNum (Fin 5 O))) empty_db).

Definition quiet_world : world :=
  {| w_instant := digits_instant; w_fate := Runs;
     w_date_now := 1700000000000; w_store_now := 1000;
     w_random := [3; 14; 15]; w_error_message := VUndefined |}.

(** ** Validation of a booking *)

Lemma post_booking_rejects (f : fate) (body : request_body) (d : db) :
  falsy (field_of body "service") || falsy (field_of body "duration")
  || falsy (field_of body "price") || falsy (field_of body "name")
  || falsy (field_of body "phone") || falsy (field_of body "datetime") = true ->
  post_booking f body d
  = (send 400 (ErrorBody "All booking fields are required."), d).
Proof.
  intros H. unfold post_booking. now rewrite H.
Qed.

(** C4.  A booking-create request in which one of the six required fields
    service, duration, price, name, phone, datetime is absent or falsy is
    answered 400, and the store is left as it was, whether or not it would
    have accepted a statement. *)
Theorem post_booking_missing_field (f : fate) (body : request_body) (d : db)
    (k : string) :
  In k ["service"; "duration"; "price"; "name"; "phone"; "datetime"]%string ->
  truthy (field_of body k) = false ->
  post_booking f body d
  = (send 400 (ErrorBody "All booking fields are required."), d).
Proof.
  intros Hk Hf. apply post_booking_rejects.
  unfold falsy. simpl in Hk.
  repeat (destruct Hk as [<- | Hk];
          [rewrite Hf; simpl; rewrite ?orb_true_r; reflexivity |]).
  contradiction.
Qed.

Lemma post_booking_missing_field_witness :
  post_booking Runs (delete "phone" massage_request) one_booking_db
  = (send 400 (ErrorBody "All booking fields are required."), one_booking_db).
Proof.
  apply (post_booking_missing_field Runs _ one_booking_db "phone").
  - simpl. tauto.
  - vm_compute. reflexivity.
Defined.

(** ** Payment initiation *)

(** No statement is issued by the handler: whatever the request, the store
    comes back as it went in. *)
Lemma post_payments_initiate_frame (now : Z) (random : list Z)
    (body : request_body) (d : db) :
  snd (post_payments_initiate now random body d) = d.
Proof.
  unfold post_payments_initiate.
  destruct (_ || _); [reflexivity |].
  destruct (call_replace _ _ _); reflexivity.
Qed.

(** With a string for [amount] the request is answered 200 a second later,
    with status ["pending"]. *)
Lemma post_payments_initiate_string (now : Z) (random : list Z)
    (body : request_body) (d : db) (a : string) :
  field_of body "amount" = VStr a ->
  truthy (VStr a) = true ->
  truthy (field_of body "serviceName") = true ->
  truthy (field_of body "bookingId") = true ->
  post_payments_initiate now random body d
  = (Sends 1000
       {| status := 200;
          body := PaymentBody
            "Payment initiation successful (simulated). Scan QR to complete."
            ("https://i.postimg.cc/Dz3sgw1N/QR1.jpg?amount="
             +:+ replace_first "$" "" a +:+ "&bookingId="
             +:+ to_string (field_of body "bookingId"))
            ("TXN-" +:+ number_to_string (Fin now O) +:+ "-"
             +:+ substr 2 9 (random_to_string36 random))
            "pending" |}, d).
Proof.
  intros Ha Ht Hs Hb. unfold post_payments_initiate, falsy.
  rewrite Ha, Ht, Hs, Hb. reflexivity.
Qed.

(** The request of the specification's example, at some instant and for
    some draw. *)
Example post_payments_initiate_fifty_dollars :
  post_payments_initiate 1700000000000 [3; 14; 15; 9; 2; 6; 5; 35; 8; 9; 7]
    fifty_dollar_request one_booking_db
  = (Sends 1000
       {| status := 200;
          body := PaymentBody
            "Payment initiation successful (simulated). Scan QR to complete."
            "https://i.postimg.cc/Dz3sgw1N/QR1.jpg?amount=50&bookingId=1"
            "TXN-1700000000000-3ef9265z8" "pending" |}, one_booking_db)
  /\ is_transaction_id "TXN-1700000000000-3ef9265z8" = true.
Proof. split; reflexivity. Qed.

(** C6.  The request [{amount: 50, serviceName: "Massage", bookingId: "1"}]
    has its three fields truthy, and the handler neither answers 200 nor
    answers at all: [amount.replace] is not a function on a number, and a
    TypeError leaves the handler.  The store is unchanged. *)
Theorem post_payments_initiate_number_amount (now : Z) (random : list Z)
    (d : db) :
  truthy (field_of fifty_request "amount") = true
  /\ truthy (field_of fifty_request "serviceName") = true
  /\ truthy (field_of fifty_request "bookingId") = true
  /\ post_payments_initiate now random fifty_request d
     = (Throws (TypeError "amount.replace is not a function"), d).
Proof.
  repeat split; reflexivity.
Qed.

(** C10.  A payment-initiate request whose three fields are truthy and
    whose [amount] is not a string makes the handler raise a TypeError
    (the call of [replace] on a value that has no such method) in place of
    a 200 or a 400 response. *)
Theorem post_payments_initiate_not_total (now : Z) (random : list Z)
    (body : request_body) (d : db) :
  truthy (field_of body "amount") = true ->
  truthy (field_of body "serviceName") = true ->
  truthy (field_of body "bookingId") = true ->
  (forall s, field_of body "amount" <> VStr s) ->
  post_payments_initiate now random body d
  = (Throws (TypeError "amount.replace is not a function"), d)
  /\ status_of (fst (post_payments_initiate now random body d)) = None.
Proof.
  intros Ha Hs Hb Hn. unfold post_payments_initiate, falsy.
  rewrite Ha, Hs, Hb. simpl.
  destruct (field_of body "amount") as [| | b | n | s] eqn:E;
    try discriminate; simpl; auto.
  now destruct (Hn s).
Qed.

Lemma post_payments_initiate_not_total_witness :
  exists body : request_body,
    field_of body "amount" = VNum (Fin 50 O)
    /\ post_payments_initiate 1700000000000 [17; 3] body empty_db
       = (Throws (TypeError "amount.replace is not a function"), empty_db).
Proof.
  exists fifty_request. split; [reflexivity |].
  apply (post_payments_initiate_not_total 1700000000000 [17; 3]
           fifty_request empty_db).
  - reflexivity.
  - reflexivity.
  - reflexivity.
  - intros s. vm_compute. discriminate.
Defined.

(** ** Payment confirmation *)

Section UpdateRows.
Variables (i : Z) (v : jsval).

Lemma update_rows_miss (l : list booking) :
  (forall x, In x l -> booking_id x <> i) ->
  SQL.update_rows i v l = l /\ SQL.returning_rows i v l = [].
Proof.
  unfold SQL.update_rows, SQL.returning_rows, SQL.has_id.
  induction l as [| b l IH]; intros H; [split; reflexivity |].
  destruct IH as [IH1 IH2]; [intros x Hx; apply H; now right |].
  assert (Hb : (booking_id b =? i) = false)
    by (apply Z.eqb_neq, H; now left).
  simpl. rewrite Hb, IH1. split; [reflexivity | exact IH2].
Qed.

Lemma returning_rows_hit (l : list booking) (x : booking) :
  In x l -> booking_id x = i -> SQL.returning_rows i v l <> [].
Proof.
  unfold SQL.returning_rows, SQL.has_id.
  induction l as [| b l IH]; intros Hx Hi; [destruct Hx |].
  simpl. destruct (booking_id b =? i) eqn:E; [discriminate |].
  destruct Hx as [-> | Hx]; [| now apply IH].
  apply Z.eqb_neq in E. contradiction.
Qed.

Lemma update_rows_idempotent (l : list booking) :
  SQL.update_rows i v (SQL.update_rows i v l) = SQL.update_rows i v l.
Proof.
  unfold SQL.update_rows, SQL.has_id. rewrite map_map.
  apply map_ext. intros b.
  destruct (booking_id b =? i) eqn:E; simpl; rewrite E; reflexivity.
Qed.

Lemma update_rows_written (l : list booking) (x : booking) :
  In x (SQL.update_rows i v l) -> booking_id x = i -> payment_status x = v.
Proof.
  unfold SQL.update_rows, SQL.has_id. rewrite in_map_iff.
  intros [b [<- _]] Hi.
  destruct (booking_id b =? i) eqn:E; [reflexivity |].
  apply Z.eqb_neq in E. contradiction.
Qed.

Lemma update_rows_others (l : list booking) (x : booking) :
  In x l -> booking_id x <> i -> In x (SQL.update_rows i v l).
Proof.
  unfold SQL.update_rows, SQL.has_id. intros Hx Hi.
  apply in_map_iff. exists x. split; [| exact Hx].
  apply Z.eqb_neq in Hi. now rewrite Hi.
Qed.

Lemma update_rows_keeps_id (l : list booking) (x : booking) :
  In x l -> booking_id x = i ->
  exists y, In y (SQL.update_rows i v l) /\ booking_id y = i.
Proof.
  unfold SQL.update_rows, SQL.has_id. intros Hx Hi.
  exists (SQL.set_payment_status v x). split; [| exact Hi].
  apply in_map_iff. exists x. split; [| exact Hx].
  apply Z.eqb_eq in Hi. now rewrite Hi.
Qed.
End UpdateRows.

Lemma rowCount_zero {R : Type} (rows : list R) :
  (rowCount rows =? 0) = true <-> rows = [].
Proof.
  unfold rowCount. destruct rows; simpl; split; intros H;
    try reflexivity; try discriminate.
Qed.

Lemma post_payments_confirm_runs (body : request_body) (d : db) (i : Z) :
  truthy (field_of body "bookingId") = true ->
  bound_id (field_of body "bookingId") = Some i ->
  post_payments_confirm Runs body d
  = if rowCount (SQL.returning_rows i (VStr "completed") (bookings d)) =? 0
    then (send 404 (ErrorBody
            ("Booking with ID " +:+ to_string (field_of body "bookingId")
             +:+ " not found for payment confirmation.")), confirmed i d)
    else (send 200 (MessageBody
            ("Payment for booking ID " +:+ to_string (field_of body "bookingId")
             +:+ " confirmed successfully.")), confirmed i d).
Proof.
  intros Ht Hi. unfold post_payments_confirm, falsy. rewrite Ht. simpl.
  unfold bound_id in Hi. unfold SQL.update_payment_status.
  destruct (SQL.param_text _) as [t |]; [| discriminate].
  rewrite Hi. reflexivity.
Qed.

Lemma confirmed_miss (i : Z) (d : db) :
  (forall x, In x (bookings d) -> booking_id x <> i) -> confirmed i d = d.
Proof.
  intros H. unfold confirmed.
  destruct (update_rows_miss i (VStr "completed") _ H) as [-> _].
  now destruct d.
Qed.

(** C3, as the handler has it.  A payment-confirm request whose bookingId
    is truthy and is read by the store as the id of an existing booking, on
    a store that runs the statement: every booking with that id has its
    payment_status set to ["completed"], the other rows and the rest of
    the store stay as they were, and the response is 200 with a body that
    is the confirmation message naming the booking id.  The updated row is
    returned by the statement to the handler and goes no further. *)
Theorem post_payments_confirm_existing (body : request_body) (d : db) (i : Z) :
  truthy (field_of body "bookingId") = true ->
  bound_id (field_of body "bookingId") = Some i ->
  (exists x, In x (bookings d) /\ booking_id x = i) ->
  post_payments_confirm Runs body d
  = (send 200 (MessageBody
       ("Payment for booking ID " +:+ to_string (field_of body "bookingId")
        +:+ " confirmed successfully.")), confirmed i d)
  /\ (forall x, In x (bookings (confirmed i d)) -> booking_id x = i ->
        payment_status x = VStr "completed")
  /\ (forall x, In x (bookings d) -> booking_id x <> i ->
        In x (bookings (confirmed i d)))
  /\ List.length (bookings (confirmed i d)) = List.length (bookings d).
Proof.
  intros Ht Hi [x [Hx Hxi]].
  rewrite (post_payments_confirm_runs body d i Ht Hi).
  destruct (rowCount _ =? 0) eqn:E.
  - apply rowCount_zero in E.
    now destruct (returning_rows_hit i (VStr "completed") _ x Hx Hxi).
  - split; [reflexivity |]. split; [| split].
    + intros y. apply update_rows_written.
    + intros y. apply update_rows_others.
    + apply length_map.
Qed.

Lemma post_payments_confirm_existing_witness :
  post_payments_confirm Runs (confirm_request (VNum (Fin 1 O))) one_booking_db
  = (send 200 (MessageBody "Payment for booking ID 1 confirmed successfully."),
     confirmed 1 one_booking_db).
Proof.
  apply (post_payments_confirm_existing
           (confirm_request (VNum (Fin 1 O))) one_booking_db 1).
  - reflexivity.
  - reflexivity.
  - exists massage_row. split; [simpl; tauto | reflexivity].
Defined.

(** C3 as it is stated fails: booking 1 exists and is confirmed, and the
    body of the 200 response is a message, not the updated booking row. *)
Lemma post_payments_confirm_body_is_message :
  bound_id (field_of (confirm_request (VNum (Fin 1 O))) "bookingId") = Some 1
  /\ In massage_row (bookings one_booking_db)
  /\ booking_id massage_row = 1
  /\ fst (post_payments_confirm Runs (confirm_request (VNum (Fin 1 O)))
            one_booking_db)
     = send 200 (MessageBody "Payment for booking ID 1 confirmed successfully.")
  /\ ~ (exists row,
          body_of (fst (post_payments_confirm Runs
                          (confirm_request (VNum (Fin 1 O))) one_booking_db))
          = Some (BookingRow (Some row))).
Proof.
  repeat split; try reflexivity.
  - simpl. tauto.
  - intros [row H]. vm_compute in H. discriminate.
Qed.

(** C5, as the handler has it.  A falsy bookingId (absent, null, 0, the
    empty string) is answered 400 before any statement is issued.  A
    truthy bookingId that the store reads as an id matching no booking
    row, on a store that runs the statement, is answered 404.  In both
    cases the store is left as it was. *)
Theorem post_payments_confirm_unknown (body : request_body) (d : db) :
  (truthy (field_of body "bookingId") = false ->
   forall f, post_payments_confirm f body d
   = (send 400 (ErrorBody "Booking ID is required to confirm payment."), d))
  /\ (truthy (field_of body "bookingId") = true ->
      forall i, bound_id (field_of body "bookingId") = Some i ->
      (forall x, In x (bookings d) -> booking_id x <> i) ->
      post_payments_confirm Runs body d
      = (send 404 (ErrorBody
           ("Booking with ID " +:+ to_string (field_of body "bookingId")
            +:+ " not found for payment confirmation.")), d)).
Proof.
  split.
  - intros Hf f. unfold post_payments_confirm, falsy. now rewrite Hf.
  - intros Ht i Hi Hmiss.
    rewrite (post_payments_confirm_runs body d i Ht Hi).
    destruct (update_rows_miss i (VStr "completed") _ Hmiss) as [_ ->].
    simpl. now rewrite confirmed_miss.
Qed.

Lemma post_payments_confirm_unknown_witness :
  post_payments_confirm Runs (confirm_request (VStr "999999")) one_booking_db
  = (send 404 (ErrorBody
       "Booking with ID 999999 not found for payment confirmation."),
     one_booking_db)
  /\ post_payments_confirm Rejects (confirm_request (VStr "")) one_booking_db
     = (send 400 (ErrorBody "Booking ID is required to confirm payment."),
        one_booking_db).
Proof.
  split.
  - apply (proj2 (post_payments_confirm_unknown
                    (confirm_request (VStr "999999")) one_booking_db)
             eq_refl 999999 eq_refl).
    intros x [<- | []]. vm_compute. discriminate.
  - apply (proj1 (post_payments_confirm_unknown
                    (confirm_request (VStr "")) one_booking_db) eq_refl).
Defined.

(** C5 as it is stated fails: the bookingId 0 matches no booking row, and
    the answer is 400, not 404. *)
Lemma post_payments_confirm_zero_is_400 :
  bound_id (field_of (confirm_request (VNum (Fin 0 O))) "bookingId") = Some 0
  /\ (forall x, In x (bookings one_booking_db) -> booking_id x <> 0)
  /\ post_payments_confirm Runs (confirm_request (VNum (Fin 0 O)))
       one_booking_db
     = (send 400 (ErrorBody "Booking ID is required to confirm payment."),
        one_booking_db)
  /\ status_of (fst (post_payments_confirm Runs
                       (confirm_request (VNum (Fin 0 O))) one_booking_db))
     <> Some 404.
Proof.
  repeat split; try reflexivity.
  - intros x [<- | []]. vm_compute. discriminate.
  - vm_compute. discriminate.
Qed.

(** Whatever the request and whatever the store does, a confirmation that
    is not answered 200 leaves the store as it was. *)
Lemma post_payments_confirm_error_frame (f : fate) (body : request_body)
    (d : db) :
  status_of (fst (post_payments_confirm f body d)) <> Some 200 ->
  snd (post_payments_confirm f body d) = d.
Proof.
  unfold post_payments_confirm.
  destruct (falsy _); [reflexivity |].
  destruct f; [| reflexivity].
  unfold query, SQL.update_payment_status.
  destruct (SQL.param_text _) as [t |]; [| reflexivity].
  destruct (SQL.integer_in t) as [i |]; [| reflexivity].
  destruct (rowCount _ =? 0) eqn:E; simpl; [intros _ | congruence].
  apply rowCount_zero in E. unfold SQL.returning_rows in E.
  apply map_eq_nil in E.
  assert (Hmiss : forall x, In x (bookings d) -> booking_id x <> i).
  { intros x Hx Hi.
    assert (Hin : In x (List.filter (SQL.has_id i) (bookings d))).
    { apply filter_In. split; [exact Hx |]. now apply Z.eqb_eq. }
    rewrite E in Hin. destruct Hin. }
  apply (confirmed_miss i d Hmiss).
Qed.

(** A bookingId that the store reads as an id other than 0 is truthy: of
    the values read as an id, only the number 0 fails the validation. *)
Lemma bound_id_truthy (v : jsval) (i : Z) :
  bound_id v = Some i -> i <> 0 -> truthy v = true.
Proof.
  destruct v as [| | b | n | s]; try discriminate.
  - destruct b; discriminate.
  - destruct n as [| sg | m d]; try discriminate.
    + destruct sg; discriminate.
    + intros Hi Hne. simpl. destruct (m =? 0) eqn:E; [| reflexivity].
      apply Z.eqb_eq in E. subst m. vm_compute in Hi. congruence.
  - destruct s; [discriminate | reflexivity].
Qed.

(** C9.  Confirming twice in a row a booking that is in the store, with a
    bookingId that passes validation, on a store that runs both
    statements: 200 both times, the store after the second confirmation is
    the store after the first, and the booking's payment_status is
    ["completed"]. *)
Theorem post_payments_confirm_idempotent (body : request_body) (d : db)
    (i : Z) :
  truthy (field_of body "bookingId") = true ->
  bound_id (field_of body "bookingId") = Some i ->
  (exists x, In x (bookings d) /\ booking_id x = i) ->
  let once := post_payments_confirm Runs body d in
  let twice := post_payments_confirm Runs body (snd once) in
  status_of (fst once) = Some 200
  /\ status_of (fst twice) = Some 200
  /\ snd twice = snd once
  /\ (forall x, In x (bookings (snd twice)) -> booking_id x = i ->
        payment_status x = VStr "completed").
Proof.
  intros Ht Hi [x [Hx Hxi]] once twice.
  assert (H1 : once
    = (send 200 (MessageBody
         ("Payment for booking ID " +:+ to_string (field_of body "bookingId")
          +:+ " confirmed successfully.")), confirmed i d)).
  { subst once. rewrite (post_payments_confirm_runs body d i Ht Hi).
    destruct (rowCount _ =? 0) eqn:E; [| reflexivity].
    apply rowCount_zero in E.
    now destruct (returning_rows_hit i (VStr "completed") _ x Hx Hxi). }
  destruct (update_rows_keeps_id i (VStr "completed") _ x Hx Hxi)
    as [y [Hy Hyi]].
  assert (H2 : twice
    = (send 200 (MessageBody
         ("Payment for booking ID " +:+ to_string (field_of body "bookingId")
          +:+ " confirmed successfully.")), confirmed i d)).
  { subst twice. rewrite H1. simpl snd.
    rewrite (post_payments_confirm_runs body (confirmed i d) i Ht Hi).
    destruct (rowCount _ =? 0) eqn:E.
    - apply rowCount_zero in E.
      now destruct (returning_rows_hit i (VStr "completed") _ y Hy Hyi).
    - f_equal. unfold confirmed at 1. simpl.
      rewrite update_rows_idempotent. reflexivity. }
  rewrite H2, H1. simpl. repeat split.
  intros z. apply update_rows_written.
Qed.

Lemma post_payments_confirm_idempotent_witness :
  snd (post_payments_confirm Runs (confirm_request (VStr "1"))
         (snd (post_payments_confirm Runs (confirm_request (VStr "1"))
                 one_booking_db)))
  = snd (post_payments_confirm Runs (confirm_request (VStr "1"))
           one_booking_db).
Proof.
  apply (post_payments_confirm_idempotent
           (confirm_request (VStr "1")) one_booking_db 1).
  - reflexivity.
  - reflexivity.
  - exists massage_row. split; [simpl; tauto | reflexivity].
Defined.

(** ** Listing *)

Section OrderByFacts.
Context {R : Type} (key : R -> Z).

Lemma insert_desc_perm (x : R) (l : list R) :
  Permutation (x :: l) (SQL.insert_desc key x l).
Proof.
  induction l as [| y l IH]; simpl; [reflexivity |].
  destruct (key y <? key x); [reflexivity |].
  rewrite perm_swap. now apply perm_skip.
Qed.

Lemma order_by_desc_perm (l : list R) :
  Permutation l (SQL.order_by_desc key l).
Proof.
  induction l as [| x l IH]; simpl; [reflexivity |].
  rewrite <- insert_desc_perm. now apply perm_skip.
Qed.

Lemma insert_desc_hd (a x : R) (l : list R) :
  descending key a x -> HdRel (descending key) a l ->
  HdRel (descending key) a (SQL.insert_desc key x l).
Proof.
  intros Hax Hal. destruct l as [| y l]; simpl.
  - now constructor.
  - destruct (key y <? key x); constructor; [exact Hax |].
    now inversion Hal.
Qed.

Lemma insert_desc_sorted (x : R) (l : list R) :
  Sorted (descending key) l -> Sorted (descending key) (SQL.insert_desc key x l).
Proof.
  induction 1 as [| y l Hl IH Hy]; simpl.
  - repeat constructor.
  - destruct (key y <? key x) eqn:E.
    + constructor; [now constructor |].
      constructor. unfold descending. apply Z.ltb_lt in E. lia.
    + constructor; [exact IH |].
      apply insert_desc_hd; [| exact Hy].
      unfold descending. apply Z.ltb_ge in E. exact E.
Qed.

Lemma order_by_desc_sorted (l : list R) :
  Sorted (descending key) (SQL.order_by_desc key l).
Proof.
  induction l as [| x l IH]; simpl; [constructor |].
  now apply insert_desc_sorted.
Qed.

Lemma descending_trans : Relations_1.Transitive (descending key).
Proof. intros a b c. unfold descending. lia. Qed.

Lemma order_by_desc_strongly_sorted (l : list R) :
  StronglySorted (descending key) (SQL.order_by_desc key l).
Proof.
  apply Sorted_StronglySorted; [exact descending_trans |].
  apply order_by_desc_sorted.
Qed.
End OrderByFacts.

(** C8.  On a store that runs the statement, the booking list is answered
    200 with all the booking rows, each as often as the table holds it,
    in descending order of datetime, and the testimonial list with all the
    testimonial rows in descending order of created_at; the store is not
    changed by either. *)
Theorem lists_are_complete_and_descending (instant : jsval -> Z) (d : db) :
  (exists rows,
     get_bookings instant Runs d = (send 200 (BookingList rows), d)
     /\ Permutation (bookings d) rows
     /\ StronglySorted (descending (fun b => instant (datetime b))) rows)
  /\ (exists rows,
        get_testimonials Runs d = (send 200 (TestimonialList rows), d)
        /\ Permutation (testimonials d) rows
        /\ StronglySorted (descending created_at) rows).
Proof.
  split.
  - exists (SQL.order_by_desc (fun b => instant (datetime b)) (bookings d)).
    split; [reflexivity |]. split.
    + apply order_by_desc_perm.
    + apply order_by_desc_strongly_sorted.
  - exists (SQL.order_by_desc created_at (testimonials d)).
    split; [reflexivity |]. split.
    + apply order_by_desc_perm.
    + apply order_by_desc_strongly_sorted.
Qed.

(** A store whose statement is rejected answers 500 to both listings. *)
Lemma lists_rejected (instant : jsval -> Z) (d : db) :
  get_bookings instant Rejects d
  = (send 500 (ErrorBody "Failed to retrieve bookings from the database."), d)
  /\ get_testimonials Rejects d
     = (send 500 (ErrorBody "Failed to retrieve testimonials from the database."), d).
Proof. split; reflexivity. Qed.

(** ** Creating a booking, then listing *)

Lemma post_booking_accepts (body : request_body) (d : db) :
  truthy (field_of body "service") = true ->
  truthy (field_of body "duration") = true ->
  truthy (field_of body "price") = true ->
  truthy (field_of body "name") = true ->
  truthy (field_of body "phone") = true ->
  truthy (field_of body "datetime") = true ->
  post_booking Runs body d
  = (send 201 (BookingRow (Some (created_booking body d))),
     with_booking (created_booking body d) d)
  /\ post_booking Rejects body d
     = (send 500 (ErrorBody "Failed to add booking to the database."), d).
Proof.
  intros H1 H2 H3 H4 H5 H6. unfold post_booking, falsy.
  rewrite H1, H2, H3, H4, H5, H6. split; reflexivity.
Qed.

(** C7, as the handlers have it.  For a booking-create request with the
    six fields truthy, on a store that runs both statements: the POST is
    answered 201 with the created row, and the GET that follows lists that
    row together with the rows that were there before and nothing else.
    The row has the next value of the id sequence for id (an id no other
    listed row has, when the sequence is ahead of the ids in the table),
    the submitted service, duration, name, phone and datetime as they
    were submitted, and for price the number [cleanPrice] makes of the
    submitted price. *)
Theorem post_booking_then_get_bookings (instant : jsval -> Z)
    (body : request_body) (d : db) :
  truthy (field_of body "service") = true ->
  truthy (field_of body "duration") = true ->
  truthy (field_of body "price") = true ->
  truthy (field_of body "name") = true ->
  truthy (field_of body "phone") = true ->
  truthy (field_of body "datetime") = true ->
  exists row d' rows,
    post_booking Runs body d = (send 201 (BookingRow (Some row)), d')
    /\ get_bookings instant Runs d' = (send 200 (BookingList rows), d')
    /\ In row rows
    /\ Permutation (row :: bookings d) rows
    /\ (bookings d = [] -> rows = [row])
    /\ booking_id row = booking_seq d
    /\ ((forall x, In x (bookings d) -> booking_id x < booking_seq d) ->
        forall x, In x rows -> booking_id x = booking_id row -> x = row)
    /\ service row = field_of body "service"
    /\ duration row = field_of body "duration"
    /\ price row = VNum (cleanPrice (field_of body "price"))
    /\ name row = field_of body "name"
    /\ phone row = field_of body "phone"
    /\ datetime row = field_of body "datetime".
Proof.
  intros H1 H2 H3 H4 H5 H6.
  set (row := created_booking body d).
  set (key := fun b => instant (datetime b)).
  exists row, (with_booking row d),
    (SQL.order_by_desc key (bookings d ++ [row])).
  assert (Hperm : Permutation (row :: bookings d)
                    (SQL.order_by_desc key (bookings d ++ [row]))).
  { rewrite <- order_by_desc_perm. apply Permutation_cons_append. }
  split; [apply (post_booking_accepts body d H1 H2 H3 H4 H5 H6) |].
  split; [reflexivity |].
  split; [apply (Permutation_in _ Hperm); now left |].
  split; [exact Hperm |].
  split; [intros ->; reflexivity |].
  split; [reflexivity |].
  split; [| repeat split].
  intros Hbelow x Hx Hid.
  apply (Permutation_in _ (Permutation_sym Hperm)) in Hx.
  destruct Hx as [<- | Hx]; [reflexivity |].
  apply Hbelow in Hx. simpl in Hid. lia.
Qed.

Lemma post_booking_then_get_bookings_witness :
  exists row d' rows,
    post_booking Runs massage_request empty_db
    = (send 201 (BookingRow (Some row)), d')
    /\ get_bookings digits_instant Runs d' = (send 200 (BookingList rows), d')
    /\ In row rows.
Proof.
  destruct (post_booking_then_get_bookings digits_instant massage_request
              empty_db eq_refl eq_refl eq_refl eq_refl eq_refl eq_refl)
    as [row [d' [rows [Hpost [Hget [Hin _]]]]]].
  exists row, d', rows. repeat split; assumption.
Defined.

(** C7 as it is stated fails: the booking posted with price ["$45.00"] is
    listed with the number 45 for price, not with the value submitted. *)
Lemma post_booking_then_get_bookings_price_changed :
  post_booking Runs massage_request empty_db
  = (send 201 (BookingRow (Some massage_row)), one_booking_db)
  /\ get_bookings digits_instant Runs one_booking_db
     = (send 200 (BookingList [massage_row]), one_booking_db)
  /\ field_of massage_request "price" = VStr "$45.00"
  /\ price massage_row = VNum (Fin 45 O)
  /\ price massage_row <> field_of massage_request "price".
Proof.
  repeat split; try reflexivity.
  vm_compute. discriminate.
Qed.

(** The sequence stays ahead of the ids in the table across a create. *)
Lemma post_booking_keeps_ids_below_seq (f : fate) (body : request_body)
    (d : db) :
  (forall x, In x (bookings d) -> booking_id x < booking_seq d) ->
  forall x, In x (bookings (snd (post_booking f body d))) ->
            booking_id x < booking_seq (snd (post_booking f body d)).
Proof.
  intros Hd. unfold post_booking.
  destruct (_ || _); [exact Hd |].
  destruct f; simpl; [| exact Hd].
  intros x Hx. apply in_app_or in Hx. destruct Hx as [Hx | [<- | []]].
  - apply Hd in Hx. lia.
  - simpl. lia.
Qed.

(** ** Creating a testimonial *)

Lemma pow10_pos (d : nat) : 0 < 10 ^ Z.of_nat d.
Proof. apply Z.pow_pos_nonneg; lia. Qed.

Lemma fin_between_1_and_5 (m : Z) (d : nat) :
  between_1_and_5 (Fin m d)
  <-> 10 ^ Z.of_nat d <= m /\ m <= 5 * 10 ^ Z.of_nat d.
Proof.
  unfold between_1_and_5, number_value, Qle. simpl Qnum. simpl Qden.
  rewrite Z2Pos.id by apply pow10_pos. lia.
Qed.

Lemma out_of_range_spec (r : number) :
  truthy (VNum r) = true ->
  (out_of_range r = false <-> between_1_and_5 r).
Proof.
  destruct r as [| s | m d]; simpl; intros Ht.
  - discriminate.
  - unfold out_of_range, between_1_and_5. simpl. destruct s; simpl; split;
      intros H; try discriminate; destruct H.
  - rewrite fin_between_1_and_5. unfold out_of_range. simpl.
    rewrite orb_false_iff, Z.ltb_ge, Z.ltb_ge. lia.
Qed.

Lemma falsy_not_between (r : number) :
  truthy (VNum r) = false -> ~ between_1_and_5 r.
Proof.
  destruct r as [| s | m d]; simpl; intros Ht; try discriminate.
  - intros [].
  - rewrite fin_between_1_and_5.
    apply negb_false_iff, Z.eqb_eq in Ht. subst m.
    pose proof (pow10_pos d). lia.
Qed.

(** C1, as the handler has it.  For a testimonial-create request with a
    number [r] for rating and the other required fields present, on a
    store that runs the statement: the request is answered 201 with the
    inserted row exactly when [1 <= r <= 5]; for any other [r] it is
    answered 400 and the store is left as it was, whatever the store would
    have done.  That 400 carries the out-of-range message when [r] is
    truthy; a rating of 0 is falsy and is turned away one step earlier,
    with the missing-field message. *)
Theorem post_testimonials_rating (now : Z) (body : request_body) (d : db)
    (r : number) :
  field_of body "rating" = VNum r ->
  truthy (field_of body "reviewerName") = true ->
  truthy (field_of body "reviewerEmail") = true ->
  truthy (field_of body "reviewText") = true ->
  is_undefined (field_of body "genuineOpinion") = false ->
  (status_of (fst (post_testimonials Runs now body d)) = Some 201
   <-> between_1_and_5 r)
  /\ (between_1_and_5 r ->
      post_testimonials Runs now body d
      = (send 201 (TestimonialRow (Some (created_testimonial now body d))),
         with_testimonial (created_testimonial now body d) d))
  /\ (~ between_1_and_5 r ->
      forall f,
        post_testimonials f now body d
        = (send 400 (ErrorBody (if truthy (VNum r) then rating_out_of_range
                                else missing_fields)), d)).
Proof.
  intros Hr Hn He Ht Hg.
  assert (Hpost : forall f, post_testimonials f now body d
    = if negb (truthy (VNum r)) then (send 400 (ErrorBody missing_fields), d)
      else if out_of_range r
      then (send 400 (ErrorBody rating_out_of_range), d)
      else match f with
           | Runs =>
               (send 201 (TestimonialRow (Some (created_testimonial now body d))),
                with_testimonial (created_testimonial now body d) d)
           | Rejects =>
               (send 500 (ErrorBody "Failed to add testimonial to the database."), d)
           end).
  { intros f. unfold post_testimonials, falsy, out_of_range.
    rewrite Hn, He, Ht, Hg, Hr.
    destruct (truthy (VNum r)); cbn [negb orb]; [| reflexivity].
    destruct (less_than (VNum r) (VNum (Fin 1 O)) || less_than (VNum (Fin 5 O)) (VNum r));
      [reflexivity |].
    unfold created_testimonial. rewrite Hr. destruct f; reflexivity. }
  destruct (truthy (VNum r)) eqn:Htr.
  - pose proof (out_of_range_spec r Htr) as Hspec.
    destruct (out_of_range r) eqn:Hout.
    + assert (Hnot : ~ between_1_and_5 r)
        by (intros Hb; apply Hspec in Hb; discriminate).
      split; [| split].
      * rewrite Hpost. simpl. split; [discriminate | contradiction].
      * contradiction.
      * intros _ f. rewrite Hpost. reflexivity.
    + assert (Hin : between_1_and_5 r) by now apply Hspec.
      split; [| split].
      * rewrite Hpost. simpl. split; auto.
      * intros _. rewrite Hpost. reflexivity.
      * contradiction.
  - pose proof (falsy_not_between r Htr) as Hnot.
    split; [| split].
    + rewrite Hpost. simpl. split; [discriminate | contradiction].
    + contradiction.
    + intros _ f. rewrite Hpost. reflexivity.
Qed.

Lemma post_testimonials_rating_witness :
  post_testimonials Runs 1000 (review_request (VNum (Fin 5 O))) empty_db
  = (send 201 (TestimonialRow
       (Some (created_testimonial 1000 (review_request (VNum (Fin 5 O)))
                empty_db))),
     with_testimonial
       (created_testimonial 1000 (review_request (VNum (Fin 5 O))) empty_db)
       empty_db)
  /\ post_testimonials Runs 1000 (review_request (VNum (Fin 6 O))) empty_db
     = (send 400 (ErrorBody rating_out_of_range), empty_db).
Proof.
  split.
  - apply (post_testimonials_rating 1000 (review_request (VNum (Fin 5 O)))
             empty_db (Fin 5 O) eq_refl eq_refl eq_refl eq_refl eq_refl).
    split; vm_compute; discriminate.
  - apply (proj2 (proj2
      (post_testimonials_rating 1000 (review_request (VNum (Fin 6 O)))
         empty_db (Fin 6 O) eq_refl eq_refl eq_refl eq_refl eq_refl))).
    intros [_ H]. vm_compute in H. now apply H.
Defined.

(** C1 as it is stated fails at a rating of 0: it lies outside [1, 5], the
    request is answered 400 with no row inserted, and the message is the
    one for a missing field, not the one for a rating out of range. *)
Lemma post_testimonials_zero_rating :
  ~ between_1_and_5 (Fin 0 O)
  /\ post_testimonials Runs 1000 (review_request (VNum (Fin 0 O))) empty_db
     = (send 400 (ErrorBody missing_fields), empty_db)
  /\ body_of (fst (post_testimonials Runs 1000
                     (review_request (VNum (Fin 0 O))) empty_db))
     <> Some (ErrorBody rating_out_of_range).
Proof.
  split; [| split].
  - intros [H _]. vm_compute in H. now apply H.
  - reflexivity.
  - vm_compute. discriminate.
Qed.

(** Ratings of 6 and of -1 get the out-of-range message. *)
Example post_testimonials_six :
  post_testimonials Runs 1000 (review_request (VNum (Fin 6 O))) empty_db
  = (send 400 (ErrorBody rating_out_of_range), empty_db)
  /\ post_testimonials Runs 1000 (review_request (VNum (Fin (-1) O))) empty_db
     = (send 400 (ErrorBody rating_out_of_range), empty_db).
Proof. split; reflexivity. Qed.

(** ** The price of a booking *)

Lemma remove_all_keeps (s : string) :
  list_ascii_of_string (remove_all not_digit_or_point s)
  = List.filter digit_or_point (list_ascii_of_string s).
Proof.
  induction s as [| c s IH]; [reflexivity |].
  simpl. unfold not_digit_or_point, digit_or_point in *.
  destruct (is_digit c || Ascii.eqb c "."); simpl; now rewrite IH.
Qed.

Lemma digit_cases (c : ascii) :
  is_digit c = true ->
  In c ["0"; "1"; "2"; "3"; "4"; "5"; "6"; "7"; "8"; "9"]%char.
Proof.
  destruct c as [[] [] [] [] [] [] [] []]; vm_compute; intros H;
    try discriminate; tauto.
Qed.

Ltac by_digit_cases H :=
  apply digit_cases in H; simpl in H;
  repeat (destruct H as [<- | H]; [reflexivity |]); destruct H.

Lemma digit_not_space (c : ascii) : is_digit c = true -> is_space c = false.
Proof. intros H. by_digit_cases H. Qed.

Lemma digit_not_point (c : ascii) : is_digit c = true -> Ascii.eqb c "." = false.
Proof. intros H. by_digit_cases H. Qed.

Lemma append_cons (c : ascii) (a b : string) :
  String c a +:+ b = String c (a +:+ b).
Proof. reflexivity. Qed.

Lemma append_nil (b : string) : "" +:+ b = b.
Proof. reflexivity. Qed.

Lemma append_empty (s : string) : s +:+ "" = s.
Proof.
  induction s as [| c s IH]; [reflexivity |].
  now rewrite append_cons, IH.
Qed.

Lemma span_digits_all (a b : string) :
  all_digits a = true ->
  (match b with String c _ => is_digit c = false | EmptyString => True end) ->
  span_digits (a +:+ b) = (a, b).
Proof.
  intros Ha Hb. induction a as [| c a IH].
  - rewrite append_nil. destruct b as [| c b]; [reflexivity |].
    simpl. now rewrite Hb.
  - simpl in Ha. apply andb_true_iff in Ha. destruct Ha as [Hc Ha].
    rewrite append_cons. simpl. rewrite Hc, (IH Ha). reflexivity.
Qed.

(** On digits with an optional fraction, [scan_unsigned] reads the whole
    text. *)
Lemma scan_unsigned_decimal (ip fp : string) :
  all_digits ip = true -> ip <> EmptyString -> all_digits fp = true ->
  scan_unsigned (ip +:+ "." +:+ fp)
  = Some (scale (decimal_value (ip +:+ fp)) (- Z.of_nat (String.length fp)),
          EmptyString).
Proof.
  intros Hip Hne Hfp. unfold scan_unsigned.
  assert (Hinf : String.prefix "Infinity" (ip +:+ "." +:+ fp) = false).
  { destruct ip as [| c ip]; [contradiction |].
    simpl in Hip. apply andb_true_iff in Hip. destruct Hip as [Hc _].
    rewrite append_cons. by_digit_cases Hc. }
  rewrite Hinf.
  rewrite (span_digits_all ip ("." +:+ fp) Hip) by reflexivity.
  rewrite append_cons, append_nil.
  pose proof (span_digits_all fp "" Hfp I) as Hspan.
  rewrite append_empty in Hspan. rewrite Hspan.
  destruct ip as [| c ip]; [contradiction |]. reflexivity.
Qed.

Lemma parseFloat_decimal (ip fp : string) :
  all_digits ip = true -> ip <> EmptyString -> all_digits fp = true ->
  parseFloat (ip +:+ "." +:+ fp)
  = scale (decimal_value (ip +:+ fp)) (- Z.of_nat (String.length fp)).
Proof.
  intros Hip Hne Hfp. unfold parseFloat.
  destruct ip as [| c ip]; [contradiction |].
  pose proof Hip as Hc. simpl in Hc. apply andb_true_iff in Hc.
  destruct Hc as [Hc _].
  assert (Htrim : trim_start (String c ip +:+ "." +:+ fp)
                  = String c ip +:+ "." +:+ fp).
  { rewrite append_cons. simpl. now rewrite (digit_not_space c Hc). }
  rewrite Htrim.
  assert (Hscan : scan_decimal (String c ip +:+ "." +:+ fp)
                  = scan_unsigned (String c ip +:+ "." +:+ fp)).
  { rewrite append_cons. clear - Hc. by_digit_cases Hc. }
  rewrite Hscan, (scan_unsigned_decimal (String c ip) fp Hip Hne Hfp).
  reflexivity.
Qed.

Lemma reduce_value (d : nat) (m : Z) :
  exists q, number_value (reduce m d) = Some q
            /\ Qeq q (m # Z.to_pos (10 ^ Z.of_nat d)).
Proof.
  revert m. induction d as [| d IH]; intros m.
  - eexists. split; [reflexivity |]. reflexivity.
  - cbn [reduce]. destruct (m mod 10 =? 0) eqn:E.
    + destruct (IH (m / 10)) as [q [Hq Heq]]. exists q. split; [exact Hq |].
      rewrite Heq. unfold Qeq. cbn [Qnum Qden].
      rewrite !Z2Pos.id by apply pow10_pos.
      rewrite Nat2Z.inj_succ, Z.pow_succ_r by lia.
      apply Z.eqb_eq in E.
      pose proof (Z.div_mod m 10 ltac:(lia)) as Hm.
      rewrite E, Z.add_0_r in Hm. rewrite Hm at 2. ring.
    + eexists. split; [reflexivity |]. reflexivity.
Qed.

(** [scale m (-n)] is the number [m / 10^n]. *)
Lemma scale_value (m : Z) (n : nat) :
  exists q, number_value (scale m (- Z.of_nat n)) = Some q
            /\ Qeq q (m # Z.to_pos (10 ^ Z.of_nat n)).
Proof.
  unfold scale. destruct (0 <=? - Z.of_nat n) eqn:E.
  - apply Z.leb_le in E. assert (n = O) by lia. subst n.
    eexists. split; [reflexivity |].
    unfold Qeq. simpl. lia.
  - rewrite Z.opp_involutive, Nat2Z.id. apply reduce_value.
Qed.

(** C2.  For a price given as a string [s], the normalization of the
    booking-create handler parses with [parseFloat] what is left of [s]
    when every character other than a digit or a decimal point has been
    taken out, the characters that are left keeping their order.  If
    nothing is left the result is NaN.  If what is left is the digits [ip],
    a point and the digits [fp], the result is the number [ip.fp]; so any
    text that reduces to ["1250.50"], such as ["$1,250.50"], gives
    1250.5. *)
Theorem cleanPrice_strips_and_parses (s : string) :
  let kept := remove_all not_digit_or_point s in
  cleanPrice (VStr s) = parseFloat kept
  /\ list_ascii_of_string kept
     = List.filter digit_or_point (list_ascii_of_string s)
  /\ (kept = EmptyString -> cleanPrice (VStr s) = NaN)
  /\ (forall ip fp : string,
        all_digits ip = true -> ip <> EmptyString -> all_digits fp = true ->
        kept = ip +:+ "." +:+ fp ->
        exists q,
          number_value (cleanPrice (VStr s)) = Some q
          /\ Qeq q (decimal_value (ip +:+ fp)
                    # Z.to_pos (10 ^ Z.of_nat (String.length fp))))
  /\ (kept = "1250.50"%string ->
      cleanPrice (VStr s) = Fin 12505 1
      /\ number_value (Fin 12505 1) = Some (12505 # 10)
      /\ Qeq (12505 # 10) (2501 # 2))
  /\ remove_all not_digit_or_point "$1,250.50" = "1250.50"%string.
Proof.
  intros kept.
  assert (Hclean : cleanPrice (VStr s) = parseFloat kept) by reflexivity.
  split; [exact Hclean |].
  split; [apply remove_all_keeps |].
  split; [intros H; rewrite Hclean, H; reflexivity |].
  split; [| split; [| reflexivity]].
  - intros ip fp Hip Hne Hfp H.
    rewrite Hclean, H, (parseFloat_decimal ip fp Hip Hne Hfp).
    apply scale_value.
  - intros H. rewrite Hclean, H. repeat split.
Qed.

Lemma cleanPrice_strips_and_parses_witness :
  cleanPrice (VStr "$1,250.50") = Fin 12505 1
  /\ cleanPrice (VStr "USD") = NaN
  /\ exists q, number_value (cleanPrice (VStr "$45.00")) = Some q
               /\ Qeq q (4500 # 100).
Proof.
  split; [| split].
  - apply (cleanPrice_strips_and_parses "$1,250.50"). reflexivity.
  - apply (cleanPrice_strips_and_parses "USD"). reflexivity.
  - apply (proj1 (proj2 (proj2 (proj2
             (cleanPrice_strips_and_parses "$45.00")))) "45" "00");
      try reflexivity. discriminate.
Defined.

(** [parseFloat] reads the longest prefix that is a decimal literal: a
    second point ends the number, and a text that starts with a point
    followed by no digit is no number. *)
Example cleanPrice_samples :
  cleanPrice (VStr "1.250.000 riel") = Fin 125 2
  /\ cleanPrice (VStr "..5") = NaN
  /\ cleanPrice (VStr "45") = Fin 45 O
  /\ cleanPrice (VNum (Fin (-5) O)) = Fin 5 O.
Proof. repeat split. Qed.

(** * Further properties of the handlers *)

(** ** Validation of a testimonial *)

Lemma post_testimonials_guard (f : fate) (now : Z) (body : request_body)
    (d : db) :
  falsy (field_of body "reviewerName") || falsy (field_of body "reviewerEmail")
  || falsy (field_of body "reviewText") || falsy (field_of body "rating")
  || is_undefined (field_of body "genuineOpinion") = true ->
  post_testimonials f now body d = (send 400 (ErrorBody missing_fields), d).
Proof.
  intros H. unfold post_testimonials. now rewrite H.
Qed.

(** A testimonial-create request in which reviewerName, reviewerEmail,
    reviewText or rating is absent or falsy is answered 400 with the
    missing-field message, the store left as it was, whatever the store
    would have done. *)
Theorem post_testimonials_missing_field (f : fate) (now : Z)
    (body : request_body) (d : db) (k : string) :
  In k ["reviewerName"; "reviewerEmail"; "reviewText"; "rating"]%string ->
  truthy (field_of body k) = false ->
  post_testimonials f now body d = (send 400 (ErrorBody missing_fields), d).
Proof.
  intros Hk Hf. apply post_testimonials_guard.
  unfold falsy. simpl in Hk.
  repeat (destruct Hk as [<- | Hk];
          [rewrite Hf; simpl; rewrite ?orb_true_r; reflexivity |]).
  contradiction.
Qed.

Lemma post_testimonials_missing_field_witness :
  post_testimonials Runs 1000 (delete "reviewText" (review_request (VNum (Fin 4 O))))
    empty_db
  = (send 400 (ErrorBody missing_fields), empty_db).
Proof.
  apply (post_testimonials_missing_field Runs 1000 _ empty_db "reviewText").
  - simpl. tauto.
  - vm_compute. reflexivity.
Defined.

(** With the three texts and the rating truthy, the missing-field answer
    is given exactly when genuineOpinion is absent: [false] and [null] are
    opinions like any other, and reviewTitle is never asked for. *)
Theorem post_testimonials_genuine_opinion (f : fate) (now : Z)
    (body : request_body) (d : db) :
  truthy (field_of body "reviewerName") = true ->
  truthy (field_of body "reviewerEmail") = true ->
  truthy (field_of body "reviewText") = true ->
  truthy (field_of body "rating") = true ->
  (body_of (fst (post_testimonials f now body d))
   = Some (ErrorBody missing_fields)
   <-> field_of body "genuineOpinion" = VUndefined).
Proof.
  intros Hn He Ht Hr. unfold post_testimonials, falsy.
  rewrite Hn, He, Ht, Hr. cbn [negb orb].
  destruct (field_of body "genuineOpinion") eqn:Hg; cbn [is_undefined];
    try (split; [| discriminate]);
    try (split; [reflexivity | reflexivity]);
    destruct (_ || _); try (intros H; discriminate H);
    destruct f; intros H; discriminate H.
Qed.

Lemma post_testimonials_genuine_opinion_witness :
  body_of (fst (post_testimonials Runs 1000
                  (delete "genuineOpinion" (review_request (VNum (Fin 4 O))))
                  empty_db))
  = Some (ErrorBody missing_fields)
  /\ body_of (fst (post_testimonials Runs 1000
                     (<["genuineOpinion" := VBool false]>
                        (review_request (VNum (Fin 4 O)))) empty_db))
     <> Some (ErrorBody missing_fields).
Proof.
  split.
  - apply (post_testimonials_genuine_opinion Runs 1000
             (delete "genuineOpinion" (review_request (VNum (Fin 4 O))))
             empty_db); vm_compute; reflexivity.
  - intros H.
    apply (post_testimonials_genuine_opinion Runs 1000
             (<["genuineOpinion" := VBool false]>
                (review_request (VNum (Fin 4 O))))
             empty_db) in H; try (vm_compute; reflexivity).
    vm_compute in H. discriminate H.
Defined.

(** The range test compares numbers, and a comparison with NaN is false:
    a rating that is truthy and is no number at all (a text such as
    ["five"]) passes both tests, and on a store that runs the statement
    the testimonial is created with the rating as it was sent. *)
Theorem post_testimonials_rating_not_a_number (now : Z) (body : request_body)
    (d : db) :
  truthy (field_of body "reviewerName") = true ->
  truthy (field_of body "reviewerEmail") = true ->
  truthy (field_of body "reviewText") = true ->
  is_undefined (field_of body "genuineOpinion") = false ->
  truthy (field_of body "rating") = true ->
  to_number (field_of body "rating") = NaN ->
  post_testimonials Runs now body d
  = (send 201 (TestimonialRow (Some (created_testimonial now body d))),
     with_testimonial (created_testimonial now body d) d)
  /\ rating (created_testimonial now body d) = field_of body "rating".
Proof.
  intros Hn He Ht Hg Hr Hnan. unfold post_testimonials, falsy.
  rewrite Hn, He, Ht, Hg, Hr. cbn [negb orb].
  assert (Hlt : less_than (field_of body "rating") (VNum (Fin 1 O))
                || less_than (VNum (Fin 5 O)) (field_of body "rating") = false).
  { unfold less_than.
    destruct (field_of body "rating"); simpl in *; rewrite ?Hnan;
      try discriminate; reflexivity. }
  rewrite Hlt. split; reflexivity.
Qed.

Lemma post_testimonials_rating_not_a_number_witness :
  post_testimonials Runs 1000 (review_request (VStr "five")) empty_db
  = (send 201 (TestimonialRow
       (Some (created_testimonial 1000 (review_request (VStr "five")) empty_db))),
     with_testimonial
       (created_testimonial 1000 (review_request (VStr "five")) empty_db)
       empty_db).
Proof.
  apply (post_testimonials_rating_not_a_number 1000
           (review_request (VStr "five")) empty_db);
    vm_compute; reflexivity.
Defined.

(** ** Decimal text of a natural number *)

Lemma string_of_uint_digits (u : Decimal.uint) :
  all_digits (NilEmpty.string_of_uint u) = true.
Proof. induction u; simpl; auto. Qed.

Lemma string_of_uint_length (u : Decimal.uint) :
  String.length (NilEmpty.string_of_uint u) = Decimal.nb_digits u.
Proof. induction u; simpl; auto. Qed.

Lemma decimal_value_from_acc (u : Decimal.uint) (acc : positive) :
  decimal_value_from (Z.pos acc) (NilEmpty.string_of_uint u)
  = Z.pos (Pos.of_uint_acc u acc).
Proof.
  revert acc. induction u; intros acc; simpl; [reflexivity | ..];
    rewrite <- IHu; f_equal; unfold digit_value, code; simpl; lia.
Qed.

Lemma decimal_value_of_uint (u : Decimal.uint) :
  decimal_value (NilEmpty.string_of_uint u) = Z.of_N (Pos.of_uint u).
Proof.
  unfold decimal_value. induction u; simpl; [reflexivity | exact IHu | ..];
    apply (decimal_value_from_acc u).
Qed.

Lemma to_uint_not_nil (n : N) : N.to_uint n <> Decimal.Nil.
Proof.
  destruct n; simpl; [discriminate |].
  apply DecimalPos.Unsigned.to_uint_nonnil.
Qed.

Lemma digits_string (n : Z) :
  digits n = NilEmpty.string_of_uint (N.to_uint (Z.to_N n)).
Proof.
  unfold digits, NilZero.string_of_uint.
  pose proof (to_uint_not_nil (Z.to_N n)) as H.
  destruct (N.to_uint (Z.to_N n)); [contradiction | ..]; reflexivity.
Qed.

Lemma digits_all_digits (n : Z) : all_digits (digits n) = true.
Proof. rewrite digits_string. apply string_of_uint_digits. Qed.

Lemma digits_not_empty (n : Z) : digits n <> EmptyString.
Proof.
  rewrite digits_string.
  pose proof (to_uint_not_nil (Z.to_N n)) as H.
  destruct (N.to_uint (Z.to_N n)); [contradiction | ..]; discriminate.
Qed.

(** Reading back the digits of a natural number gives the number. *)
Lemma decimal_value_digits (n : Z) : 0 <= n -> decimal_value (digits n) = n.
Proof.
  intros Hn. rewrite digits_string, decimal_value_of_uint.
  change (Pos.of_uint (N.to_uint (Z.to_N n)))
    with (N.of_uint (N.to_uint (Z.to_N n))).
  rewrite DecimalN.Unsigned.of_to. lia.
Qed.

Lemma of_uint_acc_lower (u : Decimal.uint) (acc : positive) :
  Z.pos acc * 10 ^ Z.of_nat (Decimal.nb_digits u)
  <= Z.pos (Pos.of_uint_acc u acc).
Proof.
  revert acc. induction u; intros acc;
    [simpl; lia | ..];
    cbn [Decimal.nb_digits Pos.of_uint_acc];
    rewrite Nat2Z.inj_succ, Z.pow_succ_r by lia;
    (etransitivity; [| apply IHu]);
    pose proof (pow10_pos (Decimal.nb_digits u)); nia.
Qed.

(** A text of [k] digits that does not start with 0 stands for a number of
    at least [10^(k-1)]. *)
Lemma of_uint_lower (u : Decimal.uint) :
  Decimal.unorm u = u -> u <> Decimal.zero ->
  10 ^ (Z.of_nat (Decimal.nb_digits u) - 1) <= Z.of_N (Pos.of_uint u).
Proof.
  intros Hnorm Hz.
  destruct u;
    try (cbn [Decimal.nb_digits Pos.of_uint];
         rewrite Nat2Z.inj_succ;
         replace (Z.succ (Z.of_nat (Decimal.nb_digits u)) - 1)
           with (Z.of_nat (Decimal.nb_digits u)) by lia;
         match goal with
         | |- _ <= Z.of_N (N.pos (Pos.of_uint_acc _ ?a)) =>
             pose proof (of_uint_acc_lower u a)
         end;
         pose proof (pow10_pos (Decimal.nb_digits u));
         simpl Z.of_N; nia).
  - discriminate Hnorm.
  - exfalso. unfold Decimal.unorm in Hnorm. simpl in Hnorm.
    pose proof (DecimalFacts.nb_digits_nzhead u) as Hle.
    destruct (Decimal.nzhead u) eqn:E;
      try (rewrite Hnorm in Hle; simpl in Hle; lia).
    apply Hz. symmetry. exact Hnorm.
Qed.

Lemma digits_length (n k : Z) :
  0 <= n < 10 ^ k -> 1 <= k -> Z.of_nat (String.length (digits n)) <= k.
Proof.
  intros [Hn Hk] H1. rewrite digits_string, string_of_uint_length.
  set (u := N.to_uint (Z.to_N n)).
  assert (Hnorm : Decimal.unorm u = u).
  { subst u. rewrite <- (DecimalN.Unsigned.to_of (N.to_uint (Z.to_N n))).
    now rewrite DecimalN.Unsigned.of_to. }
  destruct (Decimal.uint_eq_dec u Decimal.zero) as [-> | Hz];
    [simpl; lia |].
  pose proof (of_uint_lower u Hnorm Hz) as Hlow.
  assert (Hval : Z.of_N (Pos.of_uint u) = n).
  { subst u. change (Pos.of_uint (N.to_uint (Z.to_N n)))
      with (N.of_uint (N.to_uint (Z.to_N n))).
    rewrite DecimalN.Unsigned.of_to. lia. }
  rewrite Hval in Hlow.
  assert (Hlt : 10 ^ (Z.of_nat (Decimal.nb_digits u) - 1) < 10 ^ k) by lia.
  apply Z.pow_lt_mono_r_iff in Hlt; lia.
Qed.

Lemma zeros_succ (k : nat) : zeros (S k) = String "0" (zeros k).
Proof. reflexivity. Qed.

Lemma drop_trailing_zeros_split (s : string) :
  exists k : nat,
    s = drop_trailing_zeros s +:+ zeros k
    /\ String.length s = (String.length (drop_trailing_zeros s) + k)%nat.
Proof.
  induction s as [| c s [k [Hs Hl]]].
  - exists O. split; reflexivity.
  - cbn [drop_trailing_zeros].
    destruct (drop_trailing_zeros s) as [| a t] eqn:E.
    + rewrite append_nil in Hs. simpl in Hl.
      destruct (Ascii.eqb c "0") eqn:Hc.
      * apply Ascii.eqb_eq in Hc. subst c. exists (S k).
        rewrite append_nil, zeros_succ, <- Hs. simpl. split; congruence.
      * exists k. rewrite append_cons, append_nil, <- Hs.
        simpl. split; congruence.
    + exists k. rewrite append_cons, <- Hs. simpl. split; [reflexivity |].
      simpl in Hl. lia.
Qed.

(** Number::toString of a natural number below [10^21] is its digits. *)
Lemma number_to_string_natural (n : Z) :
  0 <= n < 10 ^ 21 -> number_to_string (Fin n O) = digits n.
Proof.
  intros Hn. unfold number_to_string.
  destruct (n =? 0) eqn:E0; [apply Z.eqb_eq in E0; now subst n |].
  assert (Hneg : (n <? 0) = false) by (apply Z.ltb_ge; lia).
  rewrite Hneg. unfold positive_to_string.
  destruct (drop_trailing_zeros_split (digits n)) as [k [Hs Hl]].
  pose proof (digits_length n 21 Hn ltac:(lia)) as Hlen.
  set (s := drop_trailing_zeros (digits n)) in *.
  replace (Z.of_nat (String.length (digits n)) - Z.of_nat 0)
    with (Z.of_nat (String.length (digits n))) by (simpl; lia).
  assert (H1 : (Z.of_nat (String.length s)
                <=? Z.of_nat (String.length (digits n))) = true)
    by (apply Z.leb_le; lia).
  assert (H2 : (Z.of_nat (String.length (digits n)) <=? 21) = true)
    by (apply Z.leb_le; lia).
  rewrite H1, H2. cbn [andb].
  replace (Z.to_nat (Z.of_nat (String.length (digits n))
                     - Z.of_nat (String.length s))) with k by lia.
  now rewrite <- Hs.
Qed.

Lemma digit_not_blank (c : ascii) :
  is_digit c = true -> SQL.is_blank c = false.
Proof. intros H. by_digit_cases H. Qed.

Lemma integer_in_cons (c : ascii) (r : string) :
  is_digit c = true ->
  SQL.integer_in (String c r)
  = let (ds, rest) := span_digits (String c r) in
    if is_empty ds || negb (is_empty (SQL.skip_blanks rest)) then None
    else Some (decimal_value ds).
Proof. intros H. by_digit_cases H. Qed.

(** A run of digits is read by the store as the number it spells. *)
Lemma integer_in_digits (s : string) :
  all_digits s = true -> s <> EmptyString ->
  SQL.integer_in s = Some (decimal_value s).
Proof.
  intros Hs Hne. destruct s as [| c r]; [contradiction |].
  pose proof Hs as Hc. simpl in Hc. apply andb_true_iff in Hc.
  destruct Hc as [Hc _].
  rewrite (integer_in_cons c r Hc).
  pose proof (span_digits_all (String c r) "" Hs I) as Hspan.
  rewrite append_empty in Hspan. rewrite Hspan. reflexivity.
Qed.

(** The id printed in decimal is read back by the store as that id,
    whether it is sent as text or as a number. *)
Lemma bound_id_digits (i : Z) :
  0 <= i ->
  bound_id (VStr (digits i)) = Some i
  /\ (i < 10 ^ 21 -> bound_id (VNum (Fin i O)) = Some i).
Proof.
  intros Hi.
  assert (H : SQL.integer_in (digits i) = Some i).
  { rewrite (integer_in_digits _ (digits_all_digits i) (digits_not_empty i)).
    now rewrite decimal_value_digits. }
  split; [exact H |].
  intros Hlt. unfold bound_id. cbn [SQL.param_text to_string].
  now rewrite number_to_string_natural by lia.
Qed.

(** ** The transaction id and the QR code reference *)

Lemma code_ascii_of (x : Z) :
  0 <= x < 256 -> code (ascii_of_N (Z.to_N x)) = x.
Proof.
  intros Hx. unfold code. rewrite N_ascii_embedding by lia. lia.
Qed.

Lemma base36_char_is_base36 (v : Z) : is_base36 (base36_char v) = true.
Proof.
  unfold base36_char, is_base36, is_digit.
  pose proof (Z.mod_pos_bound v 36 ltac:(lia)) as Hr.
  destruct (v mod 36 <? 10) eqn:E.
  - apply Z.ltb_lt in E. rewrite code_ascii_of by lia.
    apply orb_true_iff. left. apply andb_true_iff.
    split; apply Z.leb_le; lia.
  - apply Z.ltb_ge in E. rewrite code_ascii_of by lia.
    apply orb_true_iff. right. apply andb_true_iff.
    split; apply Z.leb_le; lia.
Qed.

Lemma base36_text (l : list Z) :
  all_base36 (string_of_list_ascii (map base36_char l)) = true.
Proof.
  induction l as [| v l IH]; [reflexivity |].
  simpl. now rewrite base36_char_is_base36, IH.
Qed.

Lemma substring_base36 (n : nat) (s : string) :
  all_base36 s = true ->
  all_base36 (String.substring 0 n s) = true
  /\ (String.length (String.substring 0 n s) <= n)%nat.
Proof.
  revert s. induction n as [| n IH]; intros s Hs.
  - destruct s; simpl; split; auto.
  - destruct s as [| c s]; [simpl; split; auto; lia |].
    simpl in Hs. apply andb_true_iff in Hs. destruct Hs as [Hc Hs].
    destruct (IH s Hs) as [H1 H2].
    simpl. rewrite Hc, H1. split; [reflexivity | lia].
Qed.

(** What follows the second hyphen of a transaction id: at most nine
    digits or lower-case letters, none for a draw of 0. *)
Lemma random_suffix (random : list Z) :
  all_base36 (substr 2 9 (random_to_string36 random)) = true
  /\ (String.length (substr 2 9 (random_to_string36 random)) <= 9)%nat.
Proof.
  unfold substr, random_to_string36.
  destruct random as [| v l]; [simpl; split; [reflexivity | lia] |].
  rewrite !append_cons, append_nil.
  change (String.substring 2 9 (String "0" (String "." ?s)))
    with (String.substring 0 9 s).
  apply substring_base36, base36_text.
Qed.

(** For every payment-initiate request with a non-empty text for amount
    and truthy serviceName and bookingId, made at an instant [Date.now()]
    that is not negative and is below [10^21]: the response is sent 1000
    milliseconds later with status 200 and ["pending"], and its
    transactionId is ["TXN-"], the digits of the instant, a hyphen, and at
    most nine digits or lower-case letters. *)
Theorem post_payments_initiate_transaction_id (now : Z) (random : list Z)
    (body : request_body) (d : db) (a : string) :
  field_of body "amount" = VStr a ->
  a <> EmptyString ->
  truthy (field_of body "serviceName") = true ->
  truthy (field_of body "bookingId") = true ->
  0 <= now < 10 ^ 21 ->
  exists qrCodeUrl suffix,
    post_payments_initiate now random body d
    = (Sends 1000
         {| status := 200;
            body := PaymentBody
              "Payment initiation successful (simulated). Scan QR to complete."
              qrCodeUrl ("TXN-" +:+ digits now +:+ "-" +:+ suffix) "pending" |},
       d)
    /\ all_base36 suffix = true
    /\ (String.length suffix <= 9)%nat
    /\ is_transaction_id ("TXN-" +:+ digits now +:+ "-" +:+ suffix) = true.
Proof.
  intros Ha Hne Hs Hb Hnow.
  assert (Ht : truthy (VStr a) = true) by (destruct a; [contradiction | reflexivity]).
  rewrite (post_payments_initiate_string now random body d a Ha Ht Hs Hb).
  rewrite (number_to_string_natural now Hnow).
  destruct (random_suffix random) as [H36 Hlen].
  eexists. exists (substr 2 9 (random_to_string36 random)).
  split; [reflexivity |]. split; [exact H36 |]. split; [exact Hlen |].
  unfold is_transaction_id. rewrite !append_cons, append_nil.
  cbn [String.prefix skip]. simpl.
  rewrite (span_digits_all (digits now) _ (digits_all_digits now))
    by reflexivity.
  pose proof (digits_not_empty now) as Hd.
  destruct (digits now); [contradiction |]. simpl. exact H36.
Qed.

Lemma post_payments_initiate_transaction_id_witness :
  exists qrCodeUrl suffix,
    post_payments_initiate 1700000000000 [3; 14; 15] fifty_dollar_request
      one_booking_db
    = (Sends 1000
         {| status := 200;
            body := PaymentBody
              "Payment initiation successful (simulated). Scan QR to complete."
              qrCodeUrl ("TXN-" +:+ digits 1700000000000 +:+ "-" +:+ suffix)
              "pending" |},
       one_booking_db)
    /\ all_base36 suffix = true.
Proof.
  destruct (post_payments_initiate_transaction_id 1700000000000 [3; 14; 15]
              fifty_dollar_request one_booking_db "$50")
    as [url [suffix [H1 [H2 _]]]];
    try (vm_compute; reflexivity).
  - discriminate.
  - split; [lia | reflexivity].
  - exists url, suffix. split; assumption.
Defined.

Lemma replace_first_no_dollar (s : string) :
  no_dollar s = true -> replace_first "$" "" s = s.
Proof.
  induction s as [| c s IH]; intros H; [reflexivity |].
  simpl in H. apply andb_true_iff in H. destruct H as [Hc Hs].
  apply negb_true_iff, Ascii.eqb_neq in Hc.
  cbn [replace_first String.prefix].
  destruct (ascii_dec "$" c) as [E | _]; [now destruct Hc |].
  now rewrite (IH Hs).
Qed.

Lemma replace_first_dollar (a b : string) :
  no_dollar a = true -> replace_first "$" "" (a +:+ "$" +:+ b) = a +:+ b.
Proof.
  induction a as [| c a IH]; intros H.
  - rewrite !append_nil, append_cons, append_nil.
    cbn [replace_first String.prefix].
    destruct (ascii_dec "$" "$") as [_ | E]; [| now destruct E].
    now destruct b.
  - simpl in H. apply andb_true_iff in H. destruct H as [Hc Ha].
    apply negb_true_iff, Ascii.eqb_neq in Hc.
    rewrite !(append_cons c a). cbn [replace_first String.prefix].
    destruct (ascii_dec "$" c) as [E | _]; [now destruct Hc |].
    now rewrite (IH Ha).
Qed.

(** The QR code reference of a payment-initiate response carries the
    amount with its first dollar sign taken out, wherever that sign
    stands, and the booking id; a dollar sign further on stays, and an
    amount without one is carried as it is. *)
Theorem post_payments_initiate_qr_code (now : Z) (random : list Z)
    (body : request_body) (d : db) (a : string) :
  field_of body "amount" = VStr a ->
  a <> EmptyString ->
  truthy (field_of body "serviceName") = true ->
  truthy (field_of body "bookingId") = true ->
  exists shown transactionId,
    post_payments_initiate now random body d
    = (Sends 1000
         {| status := 200;
            body := PaymentBody
              "Payment initiation successful (simulated). Scan QR to complete."
              ("https://i.postimg.cc/Dz3sgw1N/QR1.jpg?amount=" +:+ shown
               +:+ "&bookingId=" +:+ to_string (field_of body "bookingId"))
              transactionId "pending" |}, d)
    /\ (no_dollar a = true -> shown = a)
    /\ (forall x y, no_dollar x = true -> a = x +:+ "$" +:+ y ->
          shown = x +:+ y).
Proof.
  intros Ha Hne Hs Hb.
  assert (Ht : truthy (VStr a) = true) by (destruct a; [contradiction | reflexivity]).
  rewrite (post_payments_initiate_string now random body d a Ha Ht Hs Hb).
  exists (replace_first "$" "" a). eexists. split; [reflexivity |]. split.
  - apply replace_first_no_dollar.
  - intros x y Hx ->. now apply replace_first_dollar.
Qed.

Lemma post_payments_initiate_qr_code_witness :
  exists shown transactionId,
    post_payments_initiate 1700000000000 [3; 14; 15]
      (<["amount" := VStr "US$50 + $5"]> fifty_dollar_request) empty_db
    = (Sends 1000
         {| status := 200;
            body := PaymentBody
              "Payment initiation successful (simulated). Scan QR to complete."
              ("https://i.postimg.cc/Dz3sgw1N/QR1.jpg?amount=" +:+ shown
               +:+ "&bookingId=" +:+ "1")
              transactionId "pending" |}, empty_db)
    /\ shown = "US50 + $5"%string.
Proof.
  destruct (post_payments_initiate_qr_code 1700000000000 [3; 14; 15]
              (<["amount" := VStr "US$50 + $5"]> fifty_dollar_request)
              empty_db "US$50 + $5")
    as [shown [txn [H1 [_ H2]]]];
    try (vm_compute; reflexivity).
  - discriminate.
  - exists shown, txn. split; [exact H1 |].
    apply (H2 "US" "50 + $5"); reflexivity.
Defined.

(** ** More on the price of a booking *)

Lemma price_char_cases (c : ascii) :
  digit_or_point c = true ->
  In c ["0"; "1"; "2"; "3"; "4"; "5"; "6"; "7"; "8"; "9"; "."]%char.
Proof.
  unfold digit_or_point. intros H. apply orb_true_iff in H.
  destruct H as [H | H].
  - apply digit_cases in H. simpl in *. tauto.
  - apply Ascii.eqb_eq in H. subst c. simpl. tauto.
Qed.

Ltac by_price_char_cases H :=
  apply price_char_cases in H; simpl in H;
  repeat (destruct H as [<- | H]; [reflexivity |]); destruct H.

Lemma remove_all_price_text (s : string) :
  price_text (remove_all not_digit_or_point s) = true.
Proof.
  induction s as [| c s IH]; [reflexivity |].
  cbn [remove_all]. unfold not_digit_or_point at 1.
  destruct (is_digit c || Ascii.eqb c ".") eqn:E; cbn [negb]; [| exact IH].
  cbn [price_text]. unfold digit_or_point. now rewrite E, IH.
Qed.


(** What [span_digits] makes of a price text: digits, and a rest that is
    empty or starts with a point. *)
Lemma span_digits_price_text (s : string) :
  price_text s = true ->
  all_digits (fst (span_digits s)) = true
  /\ price_text (snd (span_digits s)) = true
  /\ (snd (span_digits s) = EmptyString
      \/ exists t, snd (span_digits s) = String "." t).
Proof.
  induction s as [| c s IH]; intros H; [simpl; auto |].
  simpl in H. apply andb_true_iff in H. destruct H as [Hc Hs].
  simpl. destruct (is_digit c) eqn:Hd.
  - destruct (IH Hs) as [H1 [H2 H3]].
    destruct (span_digits s) as [a b]. simpl in *. now rewrite Hd, H1.
  - simpl. repeat split; [now rewrite Hc, Hs |].
    right. unfold digit_or_point in Hc. rewrite Hd in Hc. simpl in Hc.
    apply Ascii.eqb_eq in Hc. subst c. now exists s.
Qed.

Lemma digit_value_nonneg (c : ascii) : is_digit c = true -> 0 <= digit_value c.
Proof.
  unfold is_digit, digit_value. intros H. apply andb_true_iff in H.
  destruct H as [H _]. apply Z.leb_le in H. lia.
Qed.

Lemma decimal_value_from_nonneg (s : string) (acc : Z) :
  all_digits s = true -> 0 <= acc -> 0 <= decimal_value_from acc s.
Proof.
  revert acc. induction s as [| c s IH]; intros acc H Hacc; [exact Hacc |].
  simpl in H. apply andb_true_iff in H. destruct H as [Hc Hs].
  simpl. apply (IH _ Hs). pose proof (digit_value_nonneg c Hc). lia.
Qed.

Lemma all_digits_app (a b : string) :
  all_digits (a +:+ b) = all_digits a && all_digits b.
Proof.
  induction a as [| c a IH]; [reflexivity |].
  rewrite append_cons. simpl. now rewrite IH, andb_assoc.
Qed.

Lemma reduce_not_negative (d : nat) (m : Z) :
  0 <= m -> not_negative (reduce m d).
Proof.
  revert m. induction d as [| d IH]; intros m Hm; [exact Hm |].
  cbn [reduce]. destruct (m mod 10 =? 0); [| exact Hm].
  apply IH. apply Z.div_pos; lia.
Qed.

Lemma scale_not_negative (m e : Z) : 0 <= m -> not_negative (scale m e).
Proof.
  intros Hm. unfold scale. destruct (0 <=? e) eqn:E.
  - simpl. apply Z.leb_le in E. apply Z.mul_nonneg_nonneg; [exact Hm |].
    apply Z.pow_nonneg. lia.
  - now apply reduce_not_negative.
Qed.

Lemma scan_exponent_price_text (s : string) :
  (s = EmptyString \/ exists t, s = String "." t) -> scan_exponent s = (0, s).
Proof. intros [-> | [t ->]]; reflexivity. Qed.

Lemma parseFloat_price_text (s : string) :
  price_text s = true -> parseFloat s = 
    match scan_unsigned s with Some (n, _) => n | None => NaN end.
Proof.
  intros H. unfold parseFloat. destruct s as [| c r]; [reflexivity |].
  simpl in H. apply andb_true_iff in H. destruct H as [Hc _].
  assert (Ht : trim_start (String c r) = String c r)
    by (clear - Hc; by_price_char_cases Hc).
  assert (Hs : scan_decimal (String c r) = scan_unsigned (String c r))
    by (clear - Hc; by_price_char_cases Hc).
  now rewrite Ht, Hs.
Qed.

Lemma scan_unsigned_not_negative (s : string) :
  price_text s = true ->
  match scan_unsigned s with
  | Some (n, _) => not_negative n
  | None => True
  end.
Proof.
  intros H. unfold scan_unsigned.
  assert (Hinf : String.prefix "Infinity" s = false).
  { destruct s as [| c r]; [reflexivity |].
    simpl in H. apply andb_true_iff in H. destruct H as [Hc _].
    clear - Hc. by_price_char_cases Hc. }
  rewrite Hinf.
  destruct (span_digits_price_text s H) as [Hip [Hr1 Hshape]].
  destruct (span_digits s) as [ip r1]. simpl in Hip, Hr1, Hshape.
  destruct Hshape as [-> | [t ->]].
  - destruct (is_empty ip); [exact I |].
    rewrite (scan_exponent_price_text "" (or_introl eq_refl)).
    apply scale_not_negative. now apply decimal_value_from_nonneg.
  - simpl in Hr1.
    destruct (span_digits_price_text t Hr1) as [Hfp [Hr2 Hshape2]].
    destruct (span_digits t) as [fp r2]. simpl in Hfp, Hr2, Hshape2.
    destruct (is_empty ip && is_empty fp); [exact I |].
    rewrite (scan_exponent_price_text r2 Hshape2).
    apply scale_not_negative. apply decimal_value_from_nonneg; [| lia].
    now rewrite all_digits_app, Hip, Hfp.
Qed.

(** Whatever is submitted for price, the number the create handler hands
    to the store is NaN or a number that is not negative: a minus sign
    does not survive the removal of everything but digits and points. *)
Theorem cleanPrice_not_negative (price : jsval) : not_negative (cleanPrice price).
Proof.
  unfold cleanPrice.
  pose proof (remove_all_price_text (to_string price)) as H.
  rewrite (parseFloat_price_text _ H).
  pose proof (scan_unsigned_not_negative _ H) as Hn.
  destruct (scan_unsigned _) as [[n r] |]; [exact Hn | exact I].
Qed.

Lemma scan_unsigned_decimal_rest (ip fp rest : string) :
  all_digits ip = true -> ip <> EmptyString -> all_digits fp = true ->
  (rest = EmptyString \/ exists t, rest = String "." t) ->
  scan_unsigned (ip +:+ "." +:+ fp +:+ rest)
  = Some (scale (decimal_value (ip +:+ fp)) (- Z.of_nat (String.length fp)),
          rest).
Proof.
  intros Hip Hne Hfp Hrest. unfold scan_unsigned.
  assert (Hinf : String.prefix "Infinity" (ip +:+ "." +:+ fp +:+ rest) = false).
  { destruct ip as [| c ip]; [contradiction |].
    simpl in Hip. apply andb_true_iff in Hip. destruct Hip as [Hc _].
    rewrite append_cons. by_digit_cases Hc. }
  rewrite Hinf.
  rewrite (span_digits_all ip ("." +:+ fp +:+ rest) Hip) by reflexivity.
  rewrite append_cons, append_nil.
  assert (Hspan : span_digits (fp +:+ rest) = (fp, rest)).
  { apply span_digits_all; [exact Hfp |].
    destruct Hrest as [-> | [t ->]]; [exact I | reflexivity]. }
  rewrite Hspan, (scan_exponent_price_text rest Hrest).
  destruct ip as [| c ip]; [contradiction |]. reflexivity.
Qed.

(** In a price with two decimal points, the second point and all that
    follows it count for nothing: what is left of ["1.250.000 riel"] reads
    as 1.25. *)
Theorem cleanPrice_second_point (s ip fp t : string) :
  all_digits ip = true -> ip <> EmptyString -> all_digits fp = true ->
  remove_all not_digit_or_point s = ip +:+ "." +:+ fp +:+ "." +:+ t ->
  cleanPrice (VStr s)
  = scale (decimal_value (ip +:+ fp)) (- Z.of_nat (String.length fp))
  /\ cleanPrice (VStr s) = parseFloat (ip +:+ "." +:+ fp).
Proof.
  intros Hip Hne Hfp Hkept.
  assert (H : cleanPrice (VStr s)
    = scale (decimal_value (ip +:+ fp)) (- Z.of_nat (String.length fp))).
  { unfold cleanPrice. cbn [to_string]. rewrite Hkept.
    unfold parseFloat.
    destruct ip as [| c ip]; [contradiction |].
    pose proof Hip as Hc. simpl in Hc. apply andb_true_iff in Hc.
    destruct Hc as [Hc _].
    assert (Htrim : trim_start (String c ip +:+ "." +:+ fp +:+ "." +:+ t)
                    = String c ip +:+ "." +:+ fp +:+ "." +:+ t).
    { rewrite (append_cons c ip). simpl. now rewrite (digit_not_space c Hc). }
    rewrite Htrim.
    assert (Hscan : scan_decimal (String c ip +:+ "." +:+ fp +:+ "." +:+ t)
                    = scan_unsigned (String c ip +:+ "." +:+ fp +:+ "." +:+ t)).
    { rewrite (append_cons c ip). clear - Hc. by_digit_cases Hc. }
    rewrite Hscan.
    rewrite (scan_unsigned_decimal_rest (String c ip) fp ("." +:+ t) Hip Hne Hfp);
      [reflexivity |].
    right. exists t. reflexivity. }
  split; [exact H |].
  now rewrite H, (parseFloat_decimal ip fp Hip Hne Hfp).
Qed.

Lemma cleanPrice_second_point_witness :
  cleanPrice (VStr "1.250.000 riel") = scale 1250 (-3)
  /\ cleanPrice (VStr "1.250.000 riel") = parseFloat "1.250".
Proof.
  apply (cleanPrice_second_point "1.250.000 riel" "1" "250" "000");
    try reflexivity. discriminate.
Defined.








Lemma remove_all_no_digit (s : string) :
  no_digit s = true -> no_digit (remove_all not_digit_or_point s) = true.
Proof.
  induction s as [| c s IH]; intros H; [reflexivity |].
  simpl in H. apply andb_true_iff in H. destruct H as [Hc Hs].
  cbn [remove_all]. destruct (not_digit_or_point c); [now apply IH |].
  cbn [no_digit]. now rewrite Hc, (IH Hs).
Qed.

Lemma span_digits_no_digit (s : string) :
  no_digit s = true -> span_digits s = (EmptyString, s).
Proof.
  destruct s as [| c s]; [reflexivity |].
  simpl. intros H. apply andb_true_iff in H. destruct H as [Hc _].
  apply negb_true_iff in Hc. now rewrite Hc.
Qed.

Lemma parseFloat_no_digit (s : string) :
  price_text s = true -> no_digit s = true -> parseFloat s = NaN.
Proof.
  intros Hp Hn. rewrite (parseFloat_price_text s Hp).
  destruct s as [| c r]; [reflexivity |].
  simpl in Hp, Hn.
  apply andb_true_iff in Hp. destruct Hp as [Hc _].
  apply andb_true_iff in Hn. destruct Hn as [Hd Hr].
  unfold digit_or_point in Hc. apply negb_true_iff in Hd.
  rewrite Hd in Hc. simpl in Hc. apply Ascii.eqb_eq in Hc. subst c.
  unfold scan_unsigned. cbn [String.prefix span_digits].
  simpl. now rewrite (span_digits_no_digit r Hr).
Qed.

(** The validation of a booking asks for a price that is truthy, not for a
    price that is a number: a price in which no digit occurs (["free"],
    ["on request"]) passes, the number handed to the store is NaN, and on
    a store that runs the statement the booking is created with NaN for
    price. *)
Theorem post_booking_price_without_digit (body : request_body) (d : db) :
  truthy (field_of body "service") = true ->
  truthy (field_of body "duration") = true ->
  truthy (field_of body "price") = true ->
  truthy (field_of body "name") = true ->
  truthy (field_of body "phone") = true ->
  truthy (field_of body "datetime") = true ->
  no_digit (to_string (field_of body "price")) = true ->
  cleanPrice (field_of body "price") = NaN
  /\ exists row,
       post_booking Runs body d
       = (send 201 (BookingRow (Some row)), with_booking row d)
       /\ price row = VNum NaN
       /\ In row (bookings (with_booking row d)).
Proof.
  intros H1 H2 H3 H4 H5 H6 Hn.
  assert (Hnan : cleanPrice (field_of body "price") = NaN).
  { unfold cleanPrice. apply parseFloat_no_digit.
    - apply remove_all_price_text.
    - now apply remove_all_no_digit. }
  split; [exact Hnan |].
  exists (created_booking body d).
  split; [apply (post_booking_accepts body d H1 H2 H3 H4 H5 H6) |].
  split; [simpl; now rewrite Hnan |].
  simpl. apply in_or_app. right. now left.
Qed.

Lemma post_booking_price_without_digit_witness :
  exists row,
    post_booking Runs (<["price" := VStr "on request"]> massage_request)
      empty_db
    = (send 201 (BookingRow (Some row)), with_booking row empty_db)
    /\ price row = VNum NaN.
Proof.
  destruct (post_booking_price_without_digit
              (<["price" := VStr "on request"]> massage_request) empty_db)
    as [_ [row [H1 [H2 _]]]]; try (vm_compute; reflexivity).
  exists row. split; assumption.
Defined.

(** ** Deleting *)

Section DeleteRows.
Context {R : Type} (key : R -> Z) (i : Z).

Lemma filter_id_miss (l : list R) :
  (forall x, In x l -> key x <> i) ->
  List.filter (fun x => key x =? i) l = []
  /\ List.filter (fun x => negb (key x =? i)) l = l.
Proof.
  induction l as [| b l IH]; intros H; [split; reflexivity |].
  destruct IH as [IH1 IH2]; [intros x Hx; apply H; now right |].
  assert (Hb : (key b =? i) = false) by (apply Z.eqb_neq, H; now left).
  simpl. rewrite Hb. simpl. rewrite IH1, IH2. split; reflexivity.
Qed.

Lemma filter_id_hit (l : list R) (x : R) :
  In x l -> key x = i -> List.filter (fun x => key x =? i) l <> [].
Proof.
  intros Hx Hi H.
  assert (Hin : In x (List.filter (fun x => key x =? i) l))
    by (apply filter_In; split; [exact Hx | now apply Z.eqb_eq]).
  rewrite H in Hin. destruct Hin.
Qed.

Lemma filter_id_empty (l : list R) :
  List.filter (fun x => key x =? i) l = [] ->
  forall x, In x l -> key x <> i.
Proof.
  intros H x Hx Hi. now apply (filter_id_hit l x Hx Hi).
Qed.

Lemma filter_id_rest (l : list R) (x : R) :
  In x (List.filter (fun x => negb (key x =? i)) l) <-> In x l /\ key x <> i.
Proof.
  rewrite filter_In, negb_true_iff, Z.eqb_neq. reflexivity.
Qed.

Lemma filter_id_twice (l : list R) :
  List.filter (fun x => key x =? i)
    (List.filter (fun x => negb (key x =? i)) l) = [].
Proof.
  apply filter_id_miss. intros x Hx. now apply filter_id_rest in Hx.
Qed.
End DeleteRows.

Lemma delete_booking_runs (id : string) (i : Z) (d : db) :
  SQL.integer_in id = Some i ->
  delete_booking Runs id d
  = if rowCount (map booking_id (List.filter (SQL.has_id i) (bookings d))) =? 0
    then (send 404 (ErrorBody ("Booking with ID " +:+ id +:+ " not found.")),
          without_booking i d)
    else (send 200 (MessageBody
            ("Booking with ID " +:+ id +:+ " deleted successfully.")),
          without_booking i d).
Proof.
  intros Hi. unfold delete_booking, query, SQL.delete_booking.
  cbn [SQL.param_text to_string]. rewrite Hi. reflexivity.
Qed.

Lemma without_booking_miss (i : Z) (d : db) :
  (forall x, In x (bookings d) -> booking_id x <> i) -> without_booking i d = d.
Proof.
  intros H. unfold without_booking, SQL.has_id.
  destruct (filter_id_miss booking_id i _ H) as [_ ->]. now destruct d.
Qed.

Lemma map_eq_nil_iff {A B : Type} (f : A -> B) (l : list A) :
  map f l = [] <-> l = [].
Proof. destruct l; simpl; split; congruence. Qed.

(** Deleting a booking by an id the store reads as that of an existing
    booking, on a store that runs the statement: 200 with the message
    naming the id as it stood in the path, and afterwards the table holds
    the bookings of every other id, those and no others, the rest of the
    store being as it was. *)
Theorem delete_booking_existing (id : string) (i : Z) (d : db) :
  SQL.integer_in id = Some i ->
  (exists x, In x (bookings d) /\ booking_id x = i) ->
  delete_booking Runs id d
  = (send 200 (MessageBody
       ("Booking with ID " +:+ id +:+ " deleted successfully.")),
     without_booking i d)
  /\ (forall x, In x (bookings (without_booking i d))
                <-> In x (bookings d) /\ booking_id x <> i)
  /\ booking_seq (without_booking i d) = booking_seq d
  /\ testimonials (without_booking i d) = testimonials d
  /\ testimonial_seq (without_booking i d) = testimonial_seq d.
Proof.
  intros Hi [x [Hx Hxi]]. rewrite (delete_booking_runs id i d Hi).
  destruct (rowCount _ =? 0) eqn:E.
  - apply rowCount_zero, map_eq_nil_iff in E.
    now destruct (filter_id_hit booking_id i _ x Hx Hxi).
  - split; [reflexivity |].
    split; [intros y; apply (filter_id_rest booking_id i) |].
    repeat split.
Qed.

Lemma delete_booking_existing_witness :
  delete_booking Runs "1" one_booking_db
  = (send 200 (MessageBody "Booking with ID 1 deleted successfully."),
     without_booking 1 one_booking_db).
Proof.
  apply (delete_booking_existing "1" 1 one_booking_db).
  - reflexivity.
  - exists massage_row. split; [simpl; tauto | reflexivity].
Defined.

Lemma delete_booking_miss (id : string) (i : Z) (d : db) :
  SQL.integer_in id = Some i ->
  (forall x, In x (bookings d) -> booking_id x <> i) ->
  delete_booking Runs id d
  = (send 404 (ErrorBody ("Booking with ID " +:+ id +:+ " not found.")), d).
Proof.
  intros Hi Hmiss. rewrite (delete_booking_runs id i d Hi).
  destruct (filter_id_miss booking_id i _ Hmiss) as [Hnone _].
  unfold SQL.has_id. rewrite Hnone. simpl.
  now rewrite (without_booking_miss i d Hmiss).
Qed.

(** Deleting a booking by an id the store reads as an integer that no
    booking has, on a store that runs the statement: 404 with the message
    naming the id, and the store is left as it was. *)
Theorem delete_booking_unknown (id : string) (i : Z) (d : db) :
  SQL.integer_in id = Some i ->
  (forall x, In x (bookings d) -> booking_id x <> i) ->
  delete_booking Runs id d
  = (send 404 (ErrorBody ("Booking with ID " +:+ id +:+ " not found.")), d).
Proof.
  intros Hi Hmiss. exact (delete_booking_miss id i d Hi Hmiss).
Qed.

Lemma delete_booking_unknown_witness :
  delete_booking Runs "999999" empty_db
  = (send 404 (ErrorBody "Booking with ID 999999 not found."), empty_db).
Proof.
  apply (delete_booking_unknown "999999" 999999 empty_db).
  - reflexivity.
  - intros x [].
Defined.

(** A booking is deleted once: when a delete has been answered 200, the
    same delete sent again is answered 404 and changes nothing. *)
Theorem delete_booking_twice (id : string) (d : db) :
  status_of (fst (delete_booking Runs id d)) = Some 200 ->
  delete_booking Runs id (snd (delete_booking Runs id d))
  = (send 404 (ErrorBody ("Booking with ID " +:+ id +:+ " not found.")),
     snd (delete_booking Runs id d)).
Proof.
  intros H.
  destruct (SQL.integer_in id) as [i |] eqn:Hi.
  - rewrite (delete_booking_runs id i d Hi) in *.
    assert (Hsnd : snd (if rowCount (map booking_id
                                       (List.filter (SQL.has_id i) (bookings d)))
                           =? 0
                        then (send 404 (ErrorBody
                                ("Booking with ID " +:+ id +:+ " not found.")),
                              without_booking i d)
                        else (send 200 (MessageBody
                                ("Booking with ID " +:+ id
                                 +:+ " deleted successfully.")),
                              without_booking i d))
                   = without_booking i d)
      by (destruct (rowCount _ =? 0); reflexivity).
    rewrite Hsnd.
    apply (delete_booking_miss id i); [exact Hi |].
    intros x Hx. now apply (filter_id_rest booking_id i) in Hx.
  - exfalso. unfold delete_booking, query, SQL.delete_booking in H.
    cbn [SQL.param_text to_string] in H. rewrite Hi in H. discriminate H.
Qed.

Lemma delete_booking_twice_witness :
  delete_booking Runs "1" (snd (delete_booking Runs "1" one_booking_db))
  = (send 404 (ErrorBody "Booking with ID 1 not found."),
     snd (delete_booking Runs "1" one_booking_db)).
Proof.
  apply (delete_booking_twice "1" one_booking_db). reflexivity.
Defined.

Lemma filter_out_appended (l : list booking) (row : booking) :
  (forall x, In x l -> booking_id x < booking_id row) ->
  List.filter (fun b => negb (SQL.has_id (booking_id row) b)) (l ++ [row]) = l
  /\ List.filter (SQL.has_id (booking_id row)) (l ++ [row]) = [row].
Proof.
  intros H. rewrite !List.filter_app. unfold SQL.has_id. simpl.
  rewrite Z.eqb_refl. simpl.
  assert (Hmiss : forall x, In x l -> booking_id x <> booking_id row)
    by (intros x Hx; apply H in Hx; lia).
  destruct (filter_id_miss booking_id (booking_id row) l Hmiss) as [-> ->].
  now rewrite app_nil_r.
Qed.

(** Create, then delete by the id that came back: for a booking-create
    request with the six fields truthy, on a store whose sequence is not
    negative and is ahead of the ids in the table, the booking is created
    with the next id, the delete of that id written in decimal is answered
    200, and the table is then what it was before the create; only the
    sequence has moved on, so that the id is not given out again. *)
Theorem post_booking_then_delete_booking (body : request_body) (d : db) :
  truthy (field_of body "service") = true ->
  truthy (field_of body "duration") = true ->
  truthy (field_of body "price") = true ->
  truthy (field_of body "name") = true ->
  truthy (field_of body "phone") = true ->
  truthy (field_of body "datetime") = true ->
  0 <= booking_seq d ->
  (forall x, In x (bookings d) -> booking_id x < booking_seq d) ->
  exists row d1 d2,
    post_booking Runs body d = (send 201 (BookingRow (Some row)), d1)
    /\ booking_id row = booking_seq d
    /\ delete_booking Runs (digits (booking_id row)) d1
       = (send 200 (MessageBody
            ("Booking with ID " +:+ digits (booking_id row)
             +:+ " deleted successfully.")), d2)
    /\ bookings d2 = bookings d
    /\ booking_seq d2 = booking_seq d + 1
    /\ testimonials d2 = testimonials d
    /\ testimonial_seq d2 = testimonial_seq d.
Proof.
  intros H1 H2 H3 H4 H5 H6 Hseq Hbelow.
  set (row := created_booking body d).
  exists row, (with_booking row d), (without_booking (booking_id row) (with_booking row d)).
  destruct (post_booking_accepts body d H1 H2 H3 H4 H5 H6) as [Hpost _].
  destruct (bound_id_digits (booking_id row) Hseq) as [Hid _].
  destruct (filter_out_appended (bookings d) row Hbelow) as [Hrest Hhit].
  split; [exact Hpost |]. split; [reflexivity |].
  split.
  - rewrite (delete_booking_runs _ (booking_id row) _ Hid).
    cbn [bookings with_booking]. now rewrite Hhit.
  - cbn [bookings without_booking with_booking booking_seq testimonials
           testimonial_seq].
    rewrite Hrest. repeat split.
Qed.

Lemma post_booking_then_delete_booking_witness :
  exists row d1 d2,
    post_booking Runs massage_request one_booking_db
    = (send 201 (BookingRow (Some row)), d1)
    /\ booking_id row = 2
    /\ delete_booking Runs (digits (booking_id row)) d1
       = (send 200 (MessageBody
            ("Booking with ID " +:+ digits (booking_id row)
             +:+ " deleted successfully.")), d2)
    /\ bookings d2 = [massage_row].
Proof.
  destruct (post_booking_then_delete_booking massage_request one_booking_db)
    as [row [d1 [d2 [Ha [Hb [Hc [Hd _]]]]]]];
    try (vm_compute; reflexivity).
  - simpl. lia.
  - intros x [<- | []]. simpl. lia.
  - exists row, d1, d2. repeat split; assumption.
Defined.

Lemma update_rows_appended (l : list booking) (row : booking) (v : jsval) :
  (forall x, In x l -> booking_id x < booking_id row) ->
  SQL.update_rows (booking_id row) v (l ++ [row])
  = l ++ [SQL.set_payment_status v row]
  /\ SQL.returning_rows (booking_id row) v (l ++ [row])
     = [SQL.set_payment_status v row].
Proof.
  intros H.
  assert (Hmiss : forall x, In x l -> booking_id x <> booking_id row)
    by (intros x Hx; apply H in Hx; lia).
  destruct (update_rows_miss (booking_id row) v l Hmiss) as [Hu Hr].
  unfold SQL.update_rows, SQL.returning_rows in *.
  rewrite List.map_app, List.filter_app, List.map_app, Hu, Hr.
  unfold SQL.has_id. simpl. now rewrite Z.eqb_refl.
Qed.

(** Create, then confirm the payment with the id that came back, sent as a
    JSON number: for a booking-create request with the six fields truthy,
    on a store whose sequence is positive, below [10^21] and ahead of the
    ids in the table, the confirmation is answered 200 and the table is
    the one before the create followed by the new booking with
    ["completed"] for payment_status, which the listing then shows. *)
Theorem post_booking_then_confirm (instant : jsval -> Z)
    (body : request_body) (d : db) :
  truthy (field_of body "service") = true ->
  truthy (field_of body "duration") = true ->
  truthy (field_of body "price") = true ->
  truthy (field_of body "name") = true ->
  truthy (field_of body "phone") = true ->
  truthy (field_of body "datetime") = true ->
  0 < booking_seq d < 10 ^ 21 ->
  (forall x, In x (bookings d) -> booking_id x < booking_seq d) ->
  exists row d1 d2 rows,
    post_booking Runs body d = (send 201 (BookingRow (Some row)), d1)
    /\ post_payments_confirm Runs
         (confirm_request (VNum (Fin (booking_id row) O))) d1
       = (send 200 (MessageBody
            ("Payment for booking ID " +:+ digits (booking_id row)
             +:+ " confirmed successfully.")), d2)
    /\ bookings d2
       = bookings d ++ [SQL.set_payment_status (VStr "completed") row]
    /\ get_bookings instant Runs d2 = (send 200 (BookingList rows), d2)
    /\ In (SQL.set_payment_status (VStr "completed") row) rows.
Proof.
  intros H1 H2 H3 H4 H5 H6 Hseq Hbelow.
  set (row := created_booking body d).
  set (paid := SQL.set_payment_status (VStr "completed") row).
  exists row, (with_booking row d), (confirmed (booking_id row) (with_booking row d)).
  exists (SQL.order_by_desc (fun b => instant (datetime b))
            (bookings (confirmed (booking_id row) (with_booking row d)))).
  destruct (post_booking_accepts body d H1 H2 H3 H4 H5 H6) as [Hpost _].
  destruct (bound_id_digits (booking_id row) ltac:(simpl; lia)) as [_ Hid].
  specialize (Hid ltac:(simpl; lia)).
  destruct (update_rows_appended (bookings d) row (VStr "completed") Hbelow)
    as [Hupd Hret].
  assert (Hfield : field_of (confirm_request (VNum (Fin (booking_id row) O)))
                     "bookingId" = VNum (Fin (booking_id row) O)).
  { reflexivity. }
  assert (Htruthy : truthy (VNum (Fin (booking_id row) O)) = true).
  { simpl. apply negb_true_iff, Z.eqb_neq. lia. }
  split; [exact Hpost |]. split; [| split; [| split]].
  - rewrite (post_payments_confirm_runs _ _ (booking_id row));
      rewrite ?Hfield; try assumption.
    cbn [bookings with_booking]. rewrite Hret. cbn [rowCount List.length].
    cbn [to_string]. rewrite number_to_string_natural by (simpl; lia).
    reflexivity.
  - cbn [bookings confirmed with_booking]. exact Hupd.
  - reflexivity.
  - apply (Permutation_in _ (order_by_desc_perm _ _)).
    cbn [bookings confirmed with_booking]. rewrite Hupd.
    apply in_or_app. right. now left.
Qed.

Lemma post_booking_then_confirm_witness :
  exists row d1 d2 rows,
    post_booking Runs massage_request one_booking_db
    = (send 201 (BookingRow (Some row)), d1)
    /\ post_payments_confirm Runs
         (confirm_request (VNum (Fin (booking_id row) O))) d1
       = (send 200 (MessageBody
            ("Payment for booking ID " +:+ digits (booking_id row)
             +:+ " confirmed successfully.")), d2)
    /\ get_bookings digits_instant Runs d2 = (send 200 (BookingList rows), d2)
    /\ In (SQL.set_payment_status (VStr "completed") row) rows.
Proof.
  destruct (post_booking_then_confirm digits_instant massage_request
              one_booking_db)
    as [row [d1 [d2 [rows [Ha [Hb [_ [Hc Hd]]]]]]]];
    try (vm_compute; reflexivity).
  - split; [simpl; lia | reflexivity].
  - intros x [<- | []]. simpl. lia.
  - exists row, d1, d2, rows. repeat split; assumption.
Defined.

(** Delete, then list: when a delete has been answered 200, the listing
    that follows shows every booking of another id that was in the table
    and no booking of the deleted id. *)
Theorem delete_booking_then_get_bookings (instant : jsval -> Z) (id : string)
    (d : db) :
  status_of (fst (delete_booking Runs id d)) = Some 200 ->
  exists i rows,
    SQL.integer_in id = Some i
    /\ get_bookings instant Runs (snd (delete_booking Runs id d))
       = (send 200 (BookingList rows), snd (delete_booking Runs id d))
    /\ (forall x, In x rows <-> In x (bookings d) /\ booking_id x <> i).
Proof.
  intros H.
  destruct (SQL.integer_in id) as [i |] eqn:Hi.
  - exists i.
    exists (SQL.order_by_desc (fun b => instant (datetime b))
              (bookings (without_booking i d))).
    assert (Hsnd : snd (delete_booking Runs id d) = without_booking i d).
    { rewrite (delete_booking_runs id i d Hi).
      destruct (rowCount _ =? 0); reflexivity. }
    rewrite Hsnd. split; [reflexivity |]. split; [reflexivity |].
    intros x. rewrite <- (filter_id_rest booking_id i (bookings d) x).
    pose proof (order_by_desc_perm (fun b => instant (datetime b))
                  (bookings (without_booking i d))) as Hperm.
    split; intros Hx.
    + apply (Permutation_in _ (Permutation_sym Hperm)), Hx.
    + apply (Permutation_in _ Hperm), Hx.
  - exfalso. unfold delete_booking, query, SQL.delete_booking in H.
    cbn [SQL.param_text to_string] in H. rewrite Hi in H. discriminate H.
Qed.

Lemma delete_booking_then_get_bookings_witness :
  exists i rows,
    SQL.integer_in "1" = Some i
    /\ get_bookings digits_instant Runs
         (snd (delete_booking Runs "1" one_booking_db))
       = (send 200 (BookingList rows),
          snd (delete_booking Runs "1" one_booking_db))
    /\ ~ In massage_row rows.
Proof.
  destruct (delete_booking_then_get_bookings digits_instant "1" one_booking_db
              eq_refl) as [i [rows [Hi [Hget Hrows]]]].
  exists i, rows. split; [exact Hi |]. split; [exact Hget |].
  intros Hin. apply Hrows in Hin. destruct Hin as [_ Hne].
  vm_compute in Hi. injection Hi as <-. now apply Hne.
Defined.

(** ** Deleting a testimonial *)

Lemma delete_testimonial_runs (m : jsval) (id : string) (i : Z) (d : db) :
  SQL.integer_in id = Some i ->
  delete_testimonial Runs m id d
  = if rowCount (map testimonial_id
                   (List.filter (SQL.has_testimonial_id i) (testimonials d)))
       =? 0
    then (send 404 (ErrorBody
            ("Testimonial with ID " +:+ id +:+ " not found.")),
          without_testimonial i d)
    else (send 200 (MessageBody
            ("Testimonial with ID " +:+ id +:+ " deleted successfully.")),
          without_testimonial i d).
Proof.
  intros Hi. unfold delete_testimonial, query, SQL.delete_testimonial.
  cbn [SQL.param_text to_string]. rewrite Hi. reflexivity.
Qed.

Lemma without_testimonial_miss (i : Z) (d : db) :
  (forall t, In t (testimonials d) -> testimonial_id t <> i) ->
  without_testimonial i d = d.
Proof.
  intros H. unfold without_testimonial, SQL.has_testimonial_id.
  destruct (filter_id_miss testimonial_id i _ H) as [_ ->]. now destruct d.
Qed.

(** Deleting a testimonial by an id the store reads as the integer [i], on
    a store that runs the statement: if a testimonial has that id the answer
    is 200 and afterwards the table holds the testimonials of every other id,
    those and no others; if none has, the answer is 404 and the store is
    left as it was.  In both cases the message names the id as it stood in
    the path. *)
Theorem delete_testimonial_by_id (m : jsval) (id : string) (i : Z) (d : db) :
  SQL.integer_in id = Some i ->
  ((exists t, In t (testimonials d) /\ testimonial_id t = i) ->
   delete_testimonial Runs m id d
   = (send 200 (MessageBody
        ("Testimonial with ID " +:+ id +:+ " deleted successfully.")),
      without_testimonial i d)
   /\ (forall t, In t (testimonials (without_testimonial i d))
                 <-> In t (testimonials d) /\ testimonial_id t <> i)
   /\ bookings (without_testimonial i d) = bookings d)
  /\ ((forall t, In t (testimonials d) -> testimonial_id t <> i) ->
      delete_testimonial Runs m id d
      = (send 404 (ErrorBody
           ("Testimonial with ID " +:+ id +:+ " not found.")), d)).
Proof.
  intros Hi. rewrite (delete_testimonial_runs m id i d Hi). split.
  - intros [t [Ht Hti]].
    destruct (rowCount _ =? 0) eqn:E.
    + apply rowCount_zero, map_eq_nil_iff in E.
      now destruct (filter_id_hit testimonial_id i _ t Ht Hti).
    + split; [reflexivity |].
      split; [intros y; apply (filter_id_rest testimonial_id i) | reflexivity].
  - intros Hmiss.
    destruct (filter_id_miss testimonial_id i _ Hmiss) as [Hnone _].
    unfold SQL.has_testimonial_id. rewrite Hnone. simpl.
    now rewrite (without_testimonial_miss i d Hmiss).
Qed.

Lemma delete_testimonial_by_id_witness :
  delete_testimonial Runs VUndefined "1" one_testimonial_db
  = (send 200 (MessageBody "Testimonial with ID 1 deleted successfully."),
     without_testimonial 1 one_testimonial_db)
  /\ delete_testimonial Runs VUndefined "7" one_testimonial_db
     = (send 404 (ErrorBody "Testimonial with ID 7 not found."),
        one_testimonial_db).
Proof.
  split.
  - apply (proj1 (delete_testimonial_by_id VUndefined "1" 1 one_testimonial_db
                    eq_refl)).
    eexists. split; [left; reflexivity | reflexivity].
  - apply (proj2 (delete_testimonial_by_id VUndefined "7" 7 one_testimonial_db
                    eq_refl)).
    intros t [<- | []]. vm_compute. discriminate.
Defined.

(** ** What every request keeps *)

Lemma NoDup_snoc {A : Type} (l : list A) (x : A) :
  List.NoDup l -> ~ In x l -> List.NoDup (l ++ [x]).
Proof.
  intros Hl Hx.
  apply (Permutation_NoDup (Permutation_cons_append l x)).
  now constructor.
Qed.

Lemma NoDup_map_filter {A : Type} (f : A -> Z) (p : A -> bool) (l : list A) :
  List.NoDup (map f l) -> List.NoDup (map f (List.filter p l)).
Proof.
  induction l as [| a l IH]; intros H; [constructor |].
  simpl in H. inversion H as [| ? ? Hnot Hl]; subst.
  simpl. destruct (p a); [| now apply IH].
  simpl. constructor; [| now apply IH].
  intros Hin. apply Hnot. apply in_map_iff in Hin.
  destruct Hin as [y [Hy Hin]]. apply filter_In in Hin.
  apply in_map_iff. exists y. tauto.
Qed.

Lemma update_rows_ids (i : Z) (v : jsval) (l : list booking) :
  map booking_id (SQL.update_rows i v l) = map booking_id l.
Proof.
  unfold SQL.update_rows. rewrite map_map. apply map_ext.
  intros b. now destruct (SQL.has_id i b).
Qed.

Lemma update_rows_in (i : Z) (v : jsval) (l : list booking) (x : booking) :
  In x (SQL.update_rows i v l) -> exists y, In y l /\ booking_id y = booking_id x.
Proof.
  unfold SQL.update_rows. rewrite in_map_iff. intros [y [<- Hy]].
  exists y. split; [exact Hy |]. now destruct (SQL.has_id i y).
Qed.

Lemma post_booking_store (f : fate) (body : request_body) (d : db) :
  snd (post_booking f body d) = d
  \/ (fst (post_booking f body d)
      = send 201 (BookingRow (Some (created_booking body d)))
      /\ snd (post_booking f body d) = with_booking (created_booking body d) d).
Proof.
  unfold post_booking. destruct (_ || _); [now left |].
  destruct f; [right; split; reflexivity | now left].
Qed.

Lemma post_testimonials_store (f : fate) (now : Z) (body : request_body)
    (d : db) :
  snd (post_testimonials f now body d) = d
  \/ (fst (post_testimonials f now body d)
      = send 201 (TestimonialRow (Some (created_testimonial now body d)))
      /\ snd (post_testimonials f now body d)
         = with_testimonial (created_testimonial now body d) d).
Proof.
  unfold post_testimonials. destruct (_ || _ || _ || _ || _); [now left |].
  destruct (_ || _); [now left |].
  destruct f; [right; split; reflexivity | now left].
Qed.

Lemma post_payments_confirm_store (f : fate) (body : request_body) (d : db) :
  snd (post_payments_confirm f body d) = d
  \/ exists i, snd (post_payments_confirm f body d) = confirmed i d.
Proof.
  unfold post_payments_confirm. destruct (falsy _); [now left |].
  destruct f; [| now left].
  unfold query, SQL.update_payment_status.
  destruct (SQL.param_text _) as [t |]; [| now left].
  destruct (SQL.integer_in t) as [i |]; [| now left].
  right. exists i. now destruct (rowCount _ =? 0).
Qed.

Lemma delete_booking_store (f : fate) (id : string) (d : db) :
  (snd (delete_booking f id d) = d
   /\ status_of (fst (delete_booking f id d)) <> Some 200)
  \/ exists i, snd (delete_booking f id d) = without_booking i d.
Proof.
  unfold delete_booking. destruct f; [| left; split; [reflexivity | discriminate]].
  unfold query, SQL.delete_booking. cbn [SQL.param_text].
  destruct (SQL.integer_in _) as [i |];
    [| left; split; [reflexivity | discriminate]].
  right. exists i. now destruct (rowCount _ =? 0).
Qed.

Lemma delete_testimonial_store (f : fate) (m : jsval) (id : string) (d : db) :
  (snd (delete_testimonial f m id d) = d
   /\ status_of (fst (delete_testimonial f m id d)) <> Some 200)
  \/ exists i, snd (delete_testimonial f m id d) = without_testimonial i d.
Proof.
  unfold delete_testimonial. destruct f; [| left; split; [reflexivity | discriminate]].
  unfold query, SQL.delete_testimonial. cbn [SQL.param_text].
  destruct (SQL.integer_in _) as [i |];
    [| left; split; [reflexivity | discriminate]].
  right. exists i. now destruct (rowCount _ =? 0).
Qed.

Lemma with_booking_fresh (body : request_body) (d : db) :
  ids_fresh d -> ids_fresh (with_booking (created_booking body d) d).
Proof.
  intros [Hb [Hlt [Ht Htl]]]. unfold ids_fresh. simpl.
  rewrite List.map_app. simpl.
  split; [| split; [| split; assumption]].
  - apply NoDup_snoc; [exact Hb |].
    intros Hin. apply in_map_iff in Hin. destruct Hin as [x [Hx Hin]].
    apply Hlt in Hin. lia.
  - intros x Hx. apply in_app_or in Hx. destruct Hx as [Hx | [<- | []]].
    + apply Hlt in Hx. lia.
    + simpl. lia.
Qed.

Lemma with_testimonial_fresh (now : Z) (body : request_body) (d : db) :
  ids_fresh d -> ids_fresh (with_testimonial (created_testimonial now body d) d).
Proof.
  intros [Hb [Hlt [Ht Htl]]]. unfold ids_fresh. simpl.
  rewrite List.map_app. simpl.
  split; [assumption | split; [assumption | split]].
  - apply NoDup_snoc; [exact Ht |].
    intros Hin. apply in_map_iff in Hin. destruct Hin as [x [Hx Hin]].
    apply Htl in Hin. lia.
  - intros x Hx. apply in_app_or in Hx. destruct Hx as [Hx | [<- | []]].
    + apply Htl in Hx. lia.
    + simpl. lia.
Qed.

Lemma confirmed_fresh (i : Z) (d : db) : ids_fresh d -> ids_fresh (confirmed i d).
Proof.
  intros [Hb [Hlt [Ht Htl]]]. unfold ids_fresh. simpl.
  rewrite update_rows_ids.
  split; [assumption | split; [| split; assumption]].
  intros x Hx. apply update_rows_in in Hx. destruct Hx as [y [Hy <-]].
  now apply Hlt.
Qed.

Lemma without_booking_fresh (i : Z) (d : db) :
  ids_fresh d -> ids_fresh (without_booking i d).
Proof.
  intros [Hb [Hlt [Ht Htl]]]. unfold ids_fresh. simpl.
  split; [now apply NoDup_map_filter | split; [| split; assumption]].
  intros x Hx. apply filter_In in Hx. now apply Hlt.
Qed.

Lemma without_testimonial_fresh (i : Z) (d : db) :
  ids_fresh d -> ids_fresh (without_testimonial i d).
Proof.
  intros [Hb [Hlt [Ht Htl]]]. unfold ids_fresh. simpl.
  split; [assumption | split; [assumption | split]].
  - now apply NoDup_map_filter.
  - intros x Hx. apply filter_In in Hx. now apply Htl.
Qed.

Lemma handle_fresh (w : world) (r : request) (d : db) :
  ids_fresh d -> ids_fresh (snd (handle w r d)).
Proof.
  intros H. destruct r as [| body | id | body | body | body | | id];
    cbn [handle].
  - unfold get_bookings. now destruct (w_fate w).
  - destruct (post_booking_store (w_fate w) body d) as [-> | [_ ->]];
      [exact H | now apply with_booking_fresh].
  - destruct (delete_booking_store (w_fate w) id d) as [[-> _] | [i ->]];
      [exact H | now apply without_booking_fresh].
  - now rewrite post_payments_initiate_frame.
  - destruct (post_payments_confirm_store (w_fate w) body d) as [-> | [i ->]];
      [exact H | now apply confirmed_fresh].
  - destruct (post_testimonials_store (w_fate w) (w_store_now w) body d)
      as [-> | [_ ->]]; [exact H | now apply with_testimonial_fresh].
  - unfold get_testimonials. now destruct (w_fate w).
  - destruct (delete_testimonial_store (w_fate w) (w_error_message w) id d)
      as [[-> _] | [i ->]]; [exact H | now apply without_testimonial_fresh].
Qed.

(** Whatever requests are served, and whatever the store does with each,
    starting from the empty store: no two bookings share an id, no two
    testimonials share an id, and each sequence is ahead of every id in its
    table, so that the id of a deleted row is not given out again. *)
Theorem served_ids_fresh (trace : list (world * request)) :
  ids_fresh (serve trace empty_db).
Proof.
  assert (H : forall d, ids_fresh d -> ids_fresh (serve trace d)).
  { induction trace as [| [w r] rest IH]; intros d Hd; [exact Hd |].
    simpl. apply IH. now apply handle_fresh. }
  apply H. unfold ids_fresh, empty_db. simpl.
  repeat split; try constructor; intros x [].
Qed.

Lemma post_booking_error_frame (f : fate) (body : request_body) (d : db) :
  status_of (fst (post_booking f body d)) <> Some 201 ->
  snd (post_booking f body d) = d.
Proof.
  destruct (post_booking_store f body d) as [H | [H _]]; [now intros _ |].
  rewrite H. intros Hs. now destruct Hs.
Qed.

Lemma post_testimonials_error_frame (f : fate) (now : Z)
    (body : request_body) (d : db) :
  status_of (fst (post_testimonials f now body d)) <> Some 201 ->
  snd (post_testimonials f now body d) = d.
Proof.
  destruct (post_testimonials_store f now body d) as [H | [H _]];
    [now intros _ |].
  rewrite H. intros Hs. now destruct Hs.
Qed.

Lemma delete_booking_error_frame (f : fate) (id : string) (d : db) :
  status_of (fst (delete_booking f id d)) <> Some 200 ->
  snd (delete_booking f id d) = d.
Proof.
  unfold delete_booking. destruct f; [| reflexivity].
  unfold query, SQL.delete_booking. cbn [SQL.param_text].
  destruct (SQL.integer_in _) as [i |]; [| reflexivity].
  destruct (rowCount _ =? 0) eqn:E; simpl; [intros _ | congruence].
  apply rowCount_zero, map_eq_nil_iff in E.
  apply (without_booking_miss i d).
  now apply (filter_id_empty booking_id i).
Qed.

Lemma delete_testimonial_error_frame (f : fate) (m : jsval) (id : string)
    (d : db) :
  status_of (fst (delete_testimonial f m id d)) <> Some 200 ->
  snd (delete_testimonial f m id d) = d.
Proof.
  unfold delete_testimonial. destruct f; [| reflexivity].
  unfold query, SQL.delete_testimonial. cbn [SQL.param_text].
  destruct (SQL.integer_in _) as [i |]; [| reflexivity].
  destruct (rowCount _ =? 0) eqn:E; simpl; [intros _ | congruence].
  apply rowCount_zero, map_eq_nil_iff in E.
  apply (without_testimonial_miss i d).
  now apply (filter_id_empty testimonial_id i).
Qed.

(** A request that is not answered 200 or 201 leaves the store as it was,
    on every route, whatever the request holds and whatever the store
    does: a 400, a 404, a 500 and an exception all come with an unchanged
    store. *)
Theorem handle_error_frame (w : world) (r : request) (d : db) :
  status_of (fst (handle w r d)) <> Some 200 ->
  status_of (fst (handle w r d)) <> Some 201 ->
  snd (handle w r d) = d.
Proof.
  destruct r as [| body | id | body | body | body | | id]; cbn [handle];
    intros H200 H201.
  - unfold get_bookings. now destruct (w_fate w).
  - now apply post_booking_error_frame.
  - now apply delete_booking_error_frame.
  - apply post_payments_initiate_frame.
  - now apply post_payments_confirm_error_frame.
  - now apply post_testimonials_error_frame.
  - unfold get_testimonials. now destruct (w_fate w).
  - now apply delete_testimonial_error_frame.
Qed.

Lemma handle_error_frame_witness :
  snd (handle quiet_world (POST_payments_confirm (confirm_request (VStr "999999")))
         one_booking_db) = one_booking_db
  /\ snd (handle quiet_world (POST_payments_initiate fifty_request)
            one_booking_db) = one_booking_db.
Proof.
  split.
  - apply (handle_error_frame quiet_world
             (POST_payments_confirm (confirm_request (VStr "999999")))
             one_booking_db); vm_compute; discriminate.
  - apply (handle_error_frame quiet_world
             (POST_payments_initiate fifty_request) one_booking_db);
      vm_compute; discriminate.
Defined.

Lemma set_payment_status_same (x : booking) :
  SQL.set_payment_status (payment_status x) x = x.
Proof. now destruct x. Qed.

Lemma confirmed_keeps_completed (i : Z) (d : db) (x : booking) :
  In x (bookings d) -> payment_status x = VStr "completed" ->
  In x (bookings (confirmed i d)).
Proof.
  intros Hx Hp. unfold confirmed, SQL.update_rows. simpl.
  apply in_map_iff. exists x. split; [| exact Hx].
  destruct (SQL.has_id i x); [| reflexivity].
  rewrite <- Hp. apply set_payment_status_same.
Qed.

(** A booking whose payment is completed stays in the table as it is, with
    payment_status ["completed"], through every request other than the
    delete of a booking: no route takes a payment back. *)
Theorem completed_stays_completed (w : world) (r : request) (d : db)
    (x : booking) :
  (forall id, r <> DELETE_booking_spa12 id) ->
  In x (bookings d) ->
  payment_status x = VStr "completed" ->
  In x (bookings (snd (handle w r d))).
Proof.
  intros Hr Hx Hp.
  destruct r as [| body | id | body | body | body | | id]; cbn [handle].
  - unfold get_bookings. now destruct (w_fate w).
  - destruct (post_booking_store (w_fate w) body d) as [-> | [_ ->]];
      [exact Hx |].
    simpl. apply in_or_app. now left.
  - now destruct (Hr id).
  - now rewrite post_payments_initiate_frame.
  - destruct (post_payments_confirm_store (w_fate w) body d) as [-> | [i ->]];
      [exact Hx | now apply confirmed_keeps_completed].
  - destruct (post_testimonials_store (w_fate w) (w_store_now w) body d)
      as [-> | [_ ->]]; exact Hx.
  - unfold get_testimonials. now destruct (w_fate w).
  - destruct (delete_testimonial_store (w_fate w) (w_error_message w) id d)
      as [[-> _] | [i ->]]; exact Hx.
Qed.

Lemma completed_stays_completed_witness :
  In (SQL.set_payment_status (VStr "completed") massage_row)
     (bookings (snd (handle quiet_world
                       (POST_payments_confirm (confirm_request (VStr "1")))
                       (confirmed 1 one_booking_db)))).
Proof.
  apply (completed_stays_completed quiet_world
           (POST_payments_confirm (confirm_request (VStr "1")))
           (confirmed 1 one_booking_db)).
  - intros id. discriminate.
  - left. reflexivity.
  - reflexivity.
Defined.


(** The routes of one table leave the other table alone: a testimonial
    request changes neither the bookings nor their sequence, and any other
    request changes neither the testimonials nor theirs. *)
Theorem tables_are_independent (w : world) (r : request) (d : db) :
  match r with
  | POST_testimonials _ | GET_testimonials | DELETE_testimonials _ =>
      bookings (snd (handle w r d)) = bookings d
      /\ booking_seq (snd (handle w r d)) = booking_seq d
  | _ =>
      testimonials (snd (handle w r d)) = testimonials d
      /\ testimonial_seq (snd (handle w r d)) = testimonial_seq d
  end.
Proof.
  destruct r as [| body | id | body | body | body | | id]; cbn [handle].
  - unfold get_bookings. now destruct (w_fate w).
  - destruct (post_booking_store (w_fate w) body d) as [-> | [_ ->]];
      split; reflexivity.
  - destruct (delete_booking_store (w_fate w) id d) as [[-> _] | [i ->]];
      split; reflexivity.
  - rewrite post_payments_initiate_frame. split; reflexivity.
  - destruct (post_payments_confirm_store (w_fate w) body d) as [-> | [i ->]];
      split; reflexivity.
  - destruct (post_testimonials_store (w_fate w) (w_store_now w) body d)
      as [-> | [_ ->]]; split; reflexivity.
  - unfold get_testimonials. now destruct (w_fate w).
  - destruct (delete_testimonial_store (w_fate w) (w_error_message w) id d)
      as [[-> _] | [i ->]]; split; reflexivity.
Qed.

(** ** The newest testimonial *)




(** ** The start-up trace *)

Lemma substring_head (n : nat) (s : string) :
  exists rest,
    s = String.substring 0 n s +:+ rest
    /\ String.length (String.substring 0 n s) = Nat.min n (String.length s).
Proof.
  revert s. induction n as [| n IH]; intros s.
  - exists s. destruct s; split; reflexivity.
  - destruct s as [| c s]; [exists EmptyString; split; reflexivity |].
    destruct (IH s) as [rest [Hs Hl]]. exists rest.
    simpl. rewrite append_cons, <- Hs, Hl. split; reflexivity.
Qed.

(** Of a database password that is set and not empty, the start-up trace
    shows the first five characters, or all of it when it has fewer,
    followed by a fixed text; what comes after the fifth character has no
    part in the trace.  A password that is not set or is empty is traced as
    ["NOT SET OR EMPTY"]. *)
Theorem password_trace_first_five (env : environment) :
  (forall p, env !! "DB_PASSWORD"%string = Some p -> p <> EmptyString ->
     exists shown rest,
       p = shown +:+ rest
       /\ String.length shown = Nat.min 5 (String.length p)
       /\ password_trace env = shown +:+ "3TEXrlu4o087YHbw3BcUKO4lOik4a2Tn")
  /\ (env !! "DB_PASSWORD"%string = None
      \/ env !! "DB_PASSWORD"%string = Some EmptyString ->
      password_trace env = "NOT SET OR EMPTY"%string).
Proof.
  unfold password_trace, getenv. split.
  - intros p Hp Hne. rewrite Hp.
    destruct (substring_head 5 p) as [rest [Hs Hl]].
    exists (String.substring 0 5 p), rest.
    split; [exact Hs |]. split; [exact Hl |].
    destruct p; [contradiction | reflexivity].
  - intros [-> | ->]; reflexivity.
Qed.

Lemma password_trace_first_five_witness :
  (exists shown rest,
     "hunter2-and-more"%string = shown +:+ rest
     /\ String.length shown = 5%nat
     /\ password_trace {[ "DB_PASSWORD"%string := "hunter2-and-more"%string ]}
        = shown +:+ "3TEXrlu4o087YHbw3BcUKO4lOik4a2Tn")
  /\ password_trace ∅ = "NOT SET OR EMPTY"%string.
Proof.
  split.
  - assert (Hset : ({[ "DB_PASSWORD"%string := "hunter2-and-more"%string ]}
                    : environment) !! "DB_PASSWORD"%string
                   = Some "hunter2-and-more"%string)
      by (vm_compute; reflexivity).
    assert (Hne : "hunter2-and-more"%string <> EmptyString) by discriminate.
    exact (proj1 (password_trace_first_five _) _ Hset Hne).
  - apply (proj2 (password_trace_first_five ∅)). left. reflexivity.
Defined.

(** ** What every stored row satisfies *)

Lemma parseFloat_not_negative (s : string) :
  price_text s = true -> not_negative (parseFloat s).
Proof.
  intros H. rewrite (parseFloat_price_text s H).
  pose proof (scan_unsigned_not_negative s H) as Hn.
  destruct (scan_unsigned s) as [[n r] |]; [exact Hn | exact I].
Qed.

Lemma post_booking_inserted (f : fate) (body : request_body) (d : db) :
  snd (post_booking f body d) = d
  \/ (snd (post_booking f body d) = with_booking (created_booking body d) d
      /\ valid_booking (created_booking body d)).
Proof.
  unfold post_booking.
  destruct (truthy (field_of body "service")) eqn:H1;
    [| left; unfold falsy; now rewrite H1].
  destruct (truthy (field_of body "duration")) eqn:H2;
    [| left; unfold falsy; now rewrite H1, H2].
  destruct (truthy (field_of body "price")) eqn:H3;
    [| left; unfold falsy; now rewrite H1, H2, H3].
  destruct (truthy (field_of body "name")) eqn:H4;
    [| left; unfold falsy; now rewrite H1, H2, H3, H4].
  destruct (truthy (field_of body "phone")) eqn:H5;
    [| left; unfold falsy; now rewrite H1, H2, H3, H4, H5].
  destruct (truthy (field_of body "datetime")) eqn:H6;
    [| left; unfold falsy; now rewrite H1, H2, H3, H4, H5, H6].
  unfold falsy. rewrite H1, H2, H3, H4, H5, H6. cbn [negb orb].
  destruct f; [right | now left].
  split; [reflexivity |].
  unfold valid_booking. cbn [created_booking service duration name phone
    datetime price payment_status].
  repeat (split; [assumption |]). split; [| now left].
  eexists. split; [reflexivity |].
  apply parseFloat_not_negative, remove_all_price_text.
Qed.

Lemma post_testimonials_inserted (f : fate) (now : Z) (body : request_body)
    (d : db) :
  snd (post_testimonials f now body d) = d
  \/ (snd (post_testimonials f now body d)
      = with_testimonial (created_testimonial now body d) d
      /\ valid_testimonial (created_testimonial now body d)).
Proof.
  unfold post_testimonials.
  destruct (truthy (field_of body "reviewerName")) eqn:H1;
    [| left; unfold falsy; now rewrite H1].
  destruct (truthy (field_of body "reviewerEmail")) eqn:H2;
    [| left; unfold falsy; now rewrite H1, H2].
  destruct (truthy (field_of body "reviewText")) eqn:H3;
    [| left; unfold falsy; now rewrite H1, H2, H3].
  destruct (truthy (field_of body "rating")) eqn:H4;
    [| left; unfold falsy; now rewrite H1, H2, H3, H4].
  destruct (is_undefined (field_of body "genuineOpinion")) eqn:H5;
    [left; unfold falsy; now rewrite H1, H2, H3, H4 |].
  unfold falsy. rewrite H1, H2, H3, H4. cbn [negb orb].
  destruct (less_than (field_of body "rating") (VNum (Fin 1 O))
            || less_than (VNum (Fin 5 O)) (field_of body "rating")) eqn:H6;
    [now left |].
  destruct f; [right | now left].
  split; [reflexivity |].
  unfold valid_testimonial. cbn [created_testimonial reviewer_name
    reviewer_email review_text rating genuine_opinion].
  repeat (split; [assumption |]). split.
  - intros Hu. rewrite Hu in H5. discriminate H5.
  - intros r Hr. rewrite Hr in H4, H6.
    now apply (out_of_range_spec r H4).
Qed.

Lemma valid_booking_paid (x : booking) :
  valid_booking x ->
  valid_booking (SQL.set_payment_status (VStr "completed") x).
Proof.
  unfold valid_booking. destruct x. simpl. intuition.
Qed.

Lemma handle_valid (w : world) (r : request) (d : db) :
  Forall valid_booking (bookings d) /\ Forall valid_testimonial (testimonials d) ->
  Forall valid_booking (bookings (snd (handle w r d)))
  /\ Forall valid_testimonial (testimonials (snd (handle w r d))).
Proof.
  intros [Hb Ht].
  destruct r as [| body | id | body | body | body | | id]; cbn [handle].
  - unfold get_bookings. now destruct (w_fate w).
  - destruct (post_booking_inserted (w_fate w) body d) as [-> | [-> Hv]];
      [now split |].
    split; [| exact Ht]. simpl. apply Forall_app. split; [exact Hb |].
    now constructor.
  - destruct (delete_booking_store (w_fate w) id d) as [[-> _] | [i ->]];
      [now split |].
    split; [| exact Ht]. simpl.
    rewrite List.Forall_forall in *. intros x Hx. apply filter_In in Hx.
    now apply Hb.
  - rewrite post_payments_initiate_frame. now split.
  - destruct (post_payments_confirm_store (w_fate w) body d) as [-> | [i ->]];
      [now split |].
    split; [| exact Ht]. simpl. unfold SQL.update_rows.
    rewrite List.Forall_forall in *. intros x Hx. apply in_map_iff in Hx.
    destruct Hx as [y [<- Hy]].
    destruct (SQL.has_id i y); [apply valid_booking_paid |]; now apply Hb.
  - destruct (post_testimonials_inserted (w_fate w) (w_store_now w) body d)
      as [-> | [-> Hv]]; [now split |].
    split; [exact Hb |]. simpl. apply Forall_app. split; [exact Ht |].
    now constructor.
  - unfold get_testimonials. now destruct (w_fate w).
  - destruct (delete_testimonial_store (w_fate w) (w_error_message w) id d)
      as [[-> _] | [i ->]]; [now split |].
    split; [exact Hb |]. simpl.
    rewrite List.Forall_forall in *. intros x Hx. apply filter_In in Hx.
    now apply Ht.
Qed.

Lemma served_valid (trace : list (world * request)) :
  Forall valid_booking (bookings (serve trace empty_db))
  /\ Forall valid_testimonial (testimonials (serve trace empty_db)).
Proof.
  assert (H : forall d,
    Forall valid_booking (bookings d) /\ Forall valid_testimonial (testimonials d) ->
    Forall valid_booking (bookings (serve trace d))
    /\ Forall valid_testimonial (testimonials (serve trace d))).
  { induction trace as [| [w r] rest IH]; intros d Hd; [exact Hd |].
    simpl. apply IH. now apply handle_valid. }
  apply H. split; constructor.
Qed.

(** Whatever requests are served, starting from the empty store, every
    booking in the table has service, duration, name, phone and datetime
    truthy, for price a number that is NaN or not negative, and a
    payment_status that is unset or ["completed"]. *)
Theorem served_bookings_valid (trace : list (world * request)) (x : booking) :
  In x (bookings (serve trace empty_db)) -> valid_booking x.
Proof.
  intros Hx. destruct (served_valid trace) as [H _].
  rewrite List.Forall_forall in H. now apply H.
Qed.

(** Whatever requests are served, starting from the empty store, every
    testimonial in the table has name, email, text and rating truthy and
    an opinion that is not undefined, and a rating that is a number lies
    in [1, 5]. *)
Theorem served_testimonials_valid (trace : list (world * request))
    (t : testimonial) :
  In t (testimonials (serve trace empty_db)) -> valid_testimonial t.
Proof.
  intros Ht. destruct (served_valid trace) as [_ H].
  rewrite List.Forall_forall in H. now apply H.
Qed.

Lemma served_bookings_valid_witness : valid_booking massage_row.
Proof.
  apply (served_bookings_valid
           [(quiet_world, POST_booking_spa12 massage_request)] massage_row).
  left. reflexivity.
Defined.

Lemma served_testimonials_valid_witness :
  valid_testimonial
    (created_testimonial 1000 (review_request (VNum (Fin 5 O))) empty_db).
Proof.
  apply (served_testimonials_valid
           [(quiet_world, POST_testimonials (review_request (VNum (Fin 5 O))))]).
  left. reflexivity.
Defined.
